(** * bigearthnet: the Lightning module's evaluation and model-selection core

    Shallow embedding of [bigearthnet/pl_modules/lightning_module.py]
    (class [LitModel]) and verification of its epoch aggregation, best-metric
    tracking, diagnostic emission and configuration check.

    Conventions of the embedding.
    - Python floats and numpy scalars are exact rationals ([Q]); NaN and the
      infinities are outside the model.  Comparisons are the exact ones.
      Nothing is stated that would depend on rounding: the thresholded
      sigmoid is an operation of the tensor runtime, taken as given, and no
      statement compares two orders of a floating-point sum.
    - Tensors are lists of rows: a [batch x num_classes] matrix is a
      [list (list _)], binary label matrices hold [bool].
    - [self] is the record [LitModel]; a method is a function in the monad
      [M], which threads [self] and stops at the first raised exception,
      keeping the state reached so far.
    - Every call the object makes on its collaborators ([self.log],
      [self.logger.log_hyperparams], [self.logger.experiment.add_figure],
      [log.info]) is appended, in order, to the field [emitted].  A call of
      [self.log] hands the value to the trainer; what the trainer passes on
      to the telemetry is [delivered]. *)

From Stdlib Require Import QArith Qminmax ZArith Lia Lqa.
From stdpp Require Import base option list strings gmap.

Local Open Scope Z_scope.
Local Open Scope string_scope.

(** ** Python values and exceptions *)

Inductive exception :=
| AssertionError
| AttributeError
| KeyError
| TypeError
| ValueError
| ZeroDivisionError.

(** What a Python call hands back when the claim is about the returned
    object itself: a function body without [return] yields [None]. *)
Inductive pyobj :=
| PyNone
| PyBool (b : bool).

(** [x < y] on numbers. *)
Definition py_lt (x y : Q) : bool :=
  match (x ?= y)%Q with Lt => true | _ => false end.

(** [x > y] on numbers. *)
Definition py_gt (x y : Q) : bool := py_lt y x.

(** [sum(l)]: starts from the integer 0 and adds from the left. *)
Definition py_sum (l : list Q) : Q := fold_left Qplus l (0 : Q)%Q.

(** [x / n] for an integer [n]: raises on a zero divisor. *)
Definition py_truediv (x : Q) (n : Z) : exception + Q :=
  if Z.eqb n 0 then inl ZeroDivisionError else inr (x / inject_Z n)%Q.

(** [s[0:n]] on a string. *)
Definition py_slice_to (n : nat) (s : string) : string := String.substring 0 n s.

(** ** The monad of methods *)

Definition M (S A : Type) : Type := S -> (exception + A) * S.

Definition ret {S A} (a : A) : M S A := fun s => (inr a, s).

Definition bind {S A B} (m : M S A) (k : A -> M S B) : M S B :=
  fun s =>
    match m s with
    | (inl e, s') => (inl e, s')
    | (inr a, s') => k a s'
    end.

Definition raise {S A} (e : exception) : M S A := fun s => (inl e, s).

Definition lift {S A} (r : exception + A) : M S A :=
  match r with inl e => raise e | inr a => ret a end.

Definition get {S} : M S S := fun s => (inr s, s).

Definition modify {S} (f : S -> S) : M S unit := fun s => (inr tt, f s).

(** [assert c]. *)
Definition py_assert {S} (c : bool) : M S unit :=
  if c then ret tt else raise AssertionError.

Declare Scope py_scope.
Delimit Scope py_scope with py.
Notation "x <- m ;; k" := (bind m (fun x => k))
  (at level 100, m at next level, right associativity) : py_scope.
Notation "m ;; k" := (bind m (fun _ => k))
  (at level 100, right associativity) : py_scope.
Local Open Scope py_scope.

(** ** sklearn.metrics on multilabel-indicator input

    The three library functions the module calls, on the input format the
    module gives them: two 0/1 matrices [samples x classes] with at least
    two columns (the library's "multilabel-indicator" target type), default
    [zero_division] (a ratio with a zero denominator is 0, with a warning
    only).  The definitions follow the library's computation: per-label
    counts first, then the confusion matrices and the ratios from them. *)
Module sklearn.

(** [y.shape[1]]. *)
Definition n_labels (y : list (list bool)) : nat :=
  match y with [] => 0%nat | r :: _ => length r end.

(** Column [j] of the matrix. *)
Definition column (j : nat) (y : list (list bool)) : list bool :=
  map (fun r => nth j r false) y.

(** [np.count_nonzero] on a 0/1 vector. *)
Fixpoint count_nonzero (v : list bool) : Z :=
  match v with
  | [] => 0
  | b :: v' => Z.b2z b + count_nonzero v'
  end.

(** Per-label counts: true positives, predicted positives, actual
    positives. *)
Definition tp_sum (y_true y_pred : list (list bool)) (j : nat) : Z :=
  count_nonzero (zip_with andb (column j y_true) (column j y_pred)).
Definition pred_sum (y_pred : list (list bool)) (j : nat) : Z :=
  count_nonzero (column j y_pred).
Definition true_sum (y_true : list (list bool)) (j : nat) : Z :=
  count_nonzero (column j y_true).

(** One label's matrix [[tn, fp], [fn, tp]]. *)
Definition confusion_matrix_of (y_true y_pred : list (list bool)) (j : nat)
  : list (list Z) :=
  let tp := tp_sum y_true y_pred j in
  let fp := pred_sum y_pred j - tp in
  let fn := true_sum y_true j - tp in
  let tn := Z.of_nat (length y_true) - tp - fp - fn in
  [[tn; fp]; [fn; tp]].

(** [multilabel_confusion_matrix(y_true, y_pred)]. *)
Definition multilabel_confusion_matrix (y_true y_pred : list (list bool))
  : list (list (list Z)) :=
  map (confusion_matrix_of y_true y_pred) (seq 0 (n_labels y_true)).

(** Cell [MCM[:, r, c]] of one matrix. *)
Definition cell (r c : nat) (cm : list (list Z)) : Z :=
  nth c (nth r cm []) 0.

Definition sumZ (l : list Z) : Z := fold_right Z.add 0 l.

(** The library's guarded division: 0 where the denominator is 0. *)
Definition _prf_divide (numerator denominator : Z) : Q :=
  if Z.eqb denominator 0 then 0%Q
  else (inject_Z numerator / inject_Z denominator)%Q.

(** F-beta from precision and recall, with beta = 1. *)
Definition f_score (precision recall : Q) : Q :=
  let beta2 := 1%Q in
  let denom := (beta2 * precision + recall)%Q in
  let denom := if Qeq_bool denom 0 then 1%Q else denom in
  ((1 + beta2) * precision * recall / denom)%Q.

(** [precision_recall_fscore_support(..., average="micro")]: the counts
    are summed over all labels before the ratios are taken; the support
    is [None] and is not represented. *)
Definition precision_recall_fscore_support_micro
    (y_true y_pred : list (list bool)) : Q * Q * Q :=
  let MCM := multilabel_confusion_matrix y_true y_pred in
  let tp := map (cell 1 1) MCM in
  let pred := map (fun cm => cell 1 1 cm + cell 0 1 cm) MCM in
  let true := map (fun cm => cell 1 1 cm + cell 1 0 cm) MCM in
  let precision := _prf_divide (sumZ tp) (sumZ pred) in
  let recall := _prf_divide (sumZ tp) (sumZ true) in
  (precision, recall, f_score precision recall).

(** One line of the classification report. *)
Record report_row := {
  row_name : string;
  row_precision : Q;
  row_recall : Q;
  row_f1 : Q;
  row_support : Z
}.

(** [precision_recall_fscore_support(..., average=None)] for one label. *)
Definition report_row_of (y_true y_pred : list (list bool))
    (j : nat) (target_name : string) : report_row :=
  let tp := tp_sum y_true y_pred j in
  let p := _prf_divide tp (pred_sum y_pred j) in
  let r := _prf_divide tp (true_sum y_true j) in
  {| row_name := target_name; row_precision := p; row_recall := r;
     row_f1 := f_score p r; row_support := true_sum y_true j |}.

(** [classification_report(..., target_names=...)]: the per-class lines
    of the table (the average lines and the number formatting are left
    out).  The library refuses a list of names whose length is not the
    number of labels. *)
Definition classification_report (y_true y_pred : list (list bool))
    (target_names : list string) : exception + list report_row :=
  if Nat.eqb (n_labels y_true) (length target_names)
  then inr (zip_with (report_row_of y_true y_pred)
              (seq 0 (n_labels y_true)) target_names)
  else inl ValueError.

End sklearn.

(** ** Data of the module *)

(** [cfg.monitor]: both fields arrive as strings from the configuration. *)
Record MonitorCfg := { mode : string; name : string }.

(** [cfg]: only [cfg.monitor] is read by the methods below. *)
Record Cfg := { monitor : MonitorCfg }.

(** What the trainer exposes to the module: [trainer.sanity_checking],
    [current_epoch], [global_step] and
    [trainer.train_dataloader.dataset.datasets.class_names]. *)
Record Trainer := {
  sanity_checking : bool;
  current_epoch : nat;
  global_step : nat;
  dataset_class_names : list string
}.

(** The dictionary returned by [_generic_step]. *)
Module Out.
Record t := {
  loss : Q;
  targets : list (list bool);
  logits : list (list Q)
}.
End Out.

(** The dictionary returned by [_generic_epoch_end]. *)
Record Metrics := {
  precision : Q;
  recall : Q;
  f1_score : Q;
  conf_mats : list (list (list Z));
  report : list sklearn.report_row;
  loss : Q
}.

(** One matplotlib axes of the figure: whether its decorations are shown,
    the matrix drawn on it (with or without a colour bar) and its title. *)
Record Axes := {
  axison : bool;
  image : option (list (list Z));
  has_colorbar : bool;
  title : string
}.

(** The lines written through [log.info]. *)
Inductive info :=
| InfoEpoch (split : string) (epoch : nat)
| InfoReport (split : string) (rep : list sklearn.report_row)
| InfoConfMats (split : string) (entries : list (string * list (list Z))).

(** What the module sends out. *)
Inductive event :=
| LogScalar (tag : string) (value : Q)
    (on_step on_epoch : option bool) (prog_bar : bool)
| LogHyperparams (c : Cfg) (metrics : gmap string Q)
| LogInfo (msg : info)
| AddFigure (tag : string) (fig : list Axes) (step : nat).

(** [self].  [best_metric] and [class_names] are attributes created by
    [on_train_start]: [None] stands for "attribute not set". *)
Record LitModel := {
  cfg : Cfg;
  best_metric : option Q;
  class_names : option (list string);
  emitted : list event
}.

Definition emit (e : event) : M LitModel unit :=
  modify (fun self =>
    {| cfg := cfg self; best_metric := best_metric self;
       class_names := class_names self; emitted := emitted self ++ [e] |}).

Definition set_best_metric (v : Q) : M LitModel unit :=
  modify (fun self =>
    {| cfg := cfg self; best_metric := Some v;
       class_names := class_names self; emitted := emitted self |}).

Definition set_class_names (l : list string) : M LitModel unit :=
  modify (fun self =>
    {| cfg := cfg self; best_metric := best_metric self;
       class_names := Some l; emitted := emitted self |}).

(** Reading an attribute that was never assigned raises. *)
Definition getattr {A} (f : LitModel -> option A) : M LitModel A :=
  self <- get ;;
  match f self with
  | Some a => ret a
  | None => raise AttributeError
  end.

(** A value stored in the metrics dictionary. *)
Inductive metric_value :=
| Scalar (q : Q)
| Array (a : list (list (list Z)))
| Text (r : list sklearn.report_row).

(** [metrics[k]]. *)
Definition metrics_getitem (metrics : Metrics) (k : string)
  : exception + metric_value :=
  if decide (k = "precision") then inr (Scalar (precision metrics))
  else if decide (k = "recall") then inr (Scalar (recall metrics))
  else if decide (k = "f1_score") then inr (Scalar (f1_score metrics))
  else if decide (k = "conf_mats") then inr (Array (conf_mats metrics))
  else if decide (k = "report") then inr (Text (report metrics))
  else if decide (k = "loss") then inr (Scalar (loss metrics))
  else inl KeyError.

(** The truth value of [v < best] ([cmp] is [py_lt]) or [v > best] ([cmp]
    is [py_gt]) inside a condition.  Only numbers reach it once
    [on_train_start] has run; a string does not compare with a number, and
    an array with several elements has no truth value (an empty one is
    false). *)
Definition compare_with (cmp : Q -> Q -> bool) (v : metric_value) (best : Q)
  : exception + bool :=
  match v with
  | Scalar q => inr (cmp q best)
  | Array [] => inr false
  | Array _ => inl ValueError
  | Text _ => inl TypeError
  end.

(** ** The methods of [LitModel] *)

(** The dictionary [init_metrics] of [on_train_start]. *)
Definition init_metrics : gmap string Q :=
  {[ "best_metrics/loss" := 99999%Q;
     "best_metrics/precision" := 0%Q;
     "best_metrics/recall" := 0%Q;
     "best_metrics/f1_score" := 0%Q ]}.

Definition on_train_start (trainer : Trainer) : M LitModel unit :=
  self <- get ;;
  let mode := mode (monitor (cfg self)) in
  let name := name (monitor (cfg self)) in
  py_assert (bool_decide (mode ∈ ["min"; "max"])) ;;
  py_assert (bool_decide (name ∈ ["loss"; "precision"; "recall"; "f1_score"])) ;;
  emit (LogHyperparams (cfg self) init_metrics) ;;
  best <- lift (match init_metrics !! ("best_metrics/" +:+ name) with
                | Some v => inr v
                | None => inl KeyError
                end) ;;
  set_best_metric best ;;
  set_class_names (dataset_class_names trainer).

(** The tensor runtime.  [sigmoid_gt_half x] is [torch.sigmoid(x) > 0.5] on
    one entry of a logits tensor, computed by the runtime in the precision
    of the tensor.  Over the reals it is [x > 0]; rounded, the sigmoid of a
    small positive [x] is exactly 0.5 and the test fails there too.  The
    development takes the operation as the runtime gives it. *)
Class TensorRuntime := { sigmoid_gt_half : Q -> bool }.

(** The runtime of the examples: the real-number test [x > 0].  The examples
    only use logits far from 0. *)
Definition real_runtime : TensorRuntime :=
  {| sigmoid_gt_half := fun x => py_gt x 0%Q |}.

Section Runtime.

Context {runtime : TensorRuntime}.

(** The three accumulators built by the loop of [_generic_epoch_end]. *)
Definition all_targets (step_outputs : list Out.t) : list (list bool) :=
  flat_map Out.targets step_outputs.
Definition all_preds (step_outputs : list Out.t) : list (list bool) :=
  flat_map (fun outputs => map (map sigmoid_gt_half) (Out.logits outputs))
    step_outputs.
Definition all_loss (step_outputs : list Out.t) : list Q :=
  map Out.loss step_outputs.

Definition _generic_epoch_end (step_outputs : list Out.t)
  : M LitModel Metrics :=
  let all_targets := all_targets step_outputs in
  let all_preds := all_preds step_outputs in
  let all_loss := all_loss step_outputs in
  let '(prec, rec, f1) :=
    sklearn.precision_recall_fscore_support_micro all_targets all_preds in
  avg_loss <- lift (py_truediv (py_sum all_loss) (Z.of_nat (length all_loss))) ;;
  let conf_mats :=
    sklearn.multilabel_confusion_matrix all_targets all_preds in
  names <- getattr class_names ;;
  report <- lift (sklearn.classification_report all_targets all_preds names) ;;
  ret {| precision := prec; recall := rec; f1_score := f1;
         conf_mats := conf_mats; report := report; loss := avg_loss |}.

(** [self.log(tag, value, on_epoch=True)], the other arguments at their
    defaults.  The call hands the value to the trainer. *)
Definition log_on_epoch (tag : string) (value : Q) : M LitModel unit :=
  emit (LogScalar tag value None (Some true) false).

(** [self.log(tag, value, on_step=True, on_epoch=True, prog_bar=True,
    logger=True)].  The call hands the value to the trainer. *)
Definition log_on_step (tag : string) (value : Q) : M LitModel unit :=
  emit (LogScalar tag value (Some true) (Some true) true).

(** A fresh axes of [plt.subplots]. *)
Definition new_axes : Axes :=
  {| axison := true; image := None; has_colorbar := false; title := "" |}.

(** [plt.subplots(nrows, ncols)] followed by [axs.ravel()]. *)
Definition subplots (nrows ncols : nat) : list Axes :=
  repeat new_axes (nrows * ncols).

Definition set_axis_off (ax : Axes) : Axes :=
  {| axison := false; image := image ax;
     has_colorbar := has_colorbar ax; title := title ax |}.

(** [ConfusionMatrixDisplay(confusion_matrix=cm).plot(ax=ax, colorbar=c)]. *)
Definition plot (cm : list (list Z)) (colorbar : bool) (ax : Axes) : Axes :=
  {| axison := axison ax; image := Some cm;
     has_colorbar := colorbar; title := title ax |}.

(** [ax.title.set_text(t)]. *)
Definition set_text (t : string) (ax : Axes) : Axes :=
  {| axison := axison ax; image := image ax;
     has_colorbar := has_colorbar ax; title := t |}.

(** The loop [for cm, label, ax in zip(conf_mats, class_names, axs.ravel())]
    of [log_metrics]: it returns the entries added to [conf_mat_log] and the
    axes after the loop.  [zip] stops at the shortest of the three. *)
Fixpoint plot_loop (conf_mats : list (list (list Z))) (labels : list string)
    (axs : list Axes) : list (string * list (list Z)) * list Axes :=
  match conf_mats, labels, axs with
  | cm :: conf_mats', label :: labels', ax :: axs' =>
      let '(entries, axs'') := plot_loop conf_mats' labels' axs' in
      ((label, cm) :: entries,
       set_text (py_slice_to 20 label) (plot cm false ax) :: axs'')
  | _, _, _ => ([], axs)
  end.

Definition log_metrics (trainer : Trainer) (metrics : Metrics) (split : string)
  : M LitModel unit :=
  log_on_epoch ("precision/" +:+ split) (precision metrics) ;;
  log_on_epoch ("recall/" +:+ split) (recall metrics) ;;
  log_on_epoch ("f1_score/" +:+ split) (f1_score metrics) ;;
  emit (LogInfo (InfoEpoch split (current_epoch trainer))) ;;
  emit (LogInfo (InfoReport split (report metrics))) ;;
  let conf_mats := conf_mats metrics in
  let axs := map set_axis_off (subplots 9 5) in
  names <- getattr class_names ;;
  let '(conf_mat_log, fig) := plot_loop conf_mats names axs in
  emit (AddFigure ("confusion matrix/" +:+ split) fig (global_step trainer)) ;;
  emit (LogInfo (InfoConfMats split conf_mat_log)).

(** The dictionary comprehension of [update_best_metric]. *)
Definition best_metrics_of (metrics : Metrics) : gmap string Q :=
  {[ "best_metrics/loss" := loss metrics;
     "best_metrics/precision" := precision metrics;
     "best_metrics/recall" := recall metrics;
     "best_metrics/f1_score" := f1_score metrics ]}.

(** [m == mode and metrics[name] <cmp> self.best_metric]: the right operand
    is evaluated only when the left one holds. *)
Definition mode_and_better (m : string) (cmp : Q -> Q -> bool)
    (metrics : Metrics) : M LitModel bool :=
  self <- get ;;
  if decide (mode (monitor (cfg self)) = m) then
    v <- lift (metrics_getitem metrics (name (monitor (cfg self)))) ;;
    best <- getattr best_metric ;;
    lift (compare_with cmp v best)
  else ret false.

Definition update_best_metric (metrics : Metrics) : M LitModel pyobj :=
  self <- get ;;
  let update := false in
  lt <- mode_and_better "min" py_lt metrics ;;
  let update := if lt then true else update in
  gt <- mode_and_better "max" py_gt metrics ;;
  let update := if gt then true else update in
  (if update then
     emit (LogHyperparams (cfg self) (best_metrics_of metrics)) ;;
     v <- lift (metrics_getitem metrics (name (monitor (cfg self)))) ;;
     match v with
     | Scalar q => set_best_metric q
     | _ => raise TypeError
     end
   else ret tt) ;;
  ret PyNone.

(** ** The step and epoch hooks

    The network and the loss are collaborators: [model] maps the inputs of a
    batch to its logits, [loss_fn] is [torch.nn.BCEWithLogitsLoss()]. *)
Section Hooks.

Context {Input : Type}.
Variable model : Input -> list (list Q).
Variable loss_fn : list (list Q) -> list (list bool) -> Q.

(** A batch [{"data": ..., "labels": ...}]. *)
Record Batch := { data : Input; labels : list (list bool) }.

Definition _generic_step (batch : Batch) (batch_idx : nat)
  : M LitModel Out.t :=
  let inputs := data batch in
  let targets := labels batch in
  let logits := model inputs in
  let loss := loss_fn logits targets in
  ret {| Out.loss := loss; Out.targets := targets; Out.logits := logits |}.

Definition training_step (batch : Batch) (batch_idx : nat)
  : M LitModel Out.t :=
  outputs <- _generic_step batch batch_idx ;;
  log_on_step "loss/train" (Out.loss outputs) ;;
  ret outputs.

Definition validation_step (batch : Batch) (batch_idx : nat)
  : M LitModel Out.t :=
  outputs <- _generic_step batch batch_idx ;;
  log_on_step "loss/val" (Out.loss outputs) ;;
  ret outputs.

Definition test_step (batch : Batch) (batch_idx : nat)
  : M LitModel Out.t :=
  outputs <- _generic_step batch batch_idx ;;
  ret outputs.

(** The trainer's loop over the batches of one phase: it calls the step
    hook on each batch in turn and collects what the hook returns. *)
Fixpoint run_steps (step : Batch -> nat -> M LitModel Out.t)
    (batches : list Batch) (batch_idx : nat) : M LitModel (list Out.t) :=
  match batches with
  | [] => ret []
  | batch :: batches' =>
      outputs <- step batch batch_idx ;;
      rest <- run_steps step batches' (S batch_idx) ;;
      ret (outputs :: rest)
  end.

End Hooks.

Definition training_epoch_end (trainer : Trainer)
    (training_step_outputs : list Out.t) : M LitModel unit :=
  metrics <- _generic_epoch_end training_step_outputs ;;
  log_metrics trainer metrics "train".

Definition validation_epoch_end (trainer : Trainer)
    (validation_step_outputs : list Out.t) : M LitModel unit :=
  if negb (sanity_checking trainer) then
    metrics <- _generic_epoch_end validation_step_outputs ;;
    log_metrics trainer metrics "val" ;;
    _ <- update_best_metric metrics ;;
    ret tt
  else ret tt.

Definition test_epoch_end (trainer : Trainer)
    (test_step_outputs : list Out.t) : M LitModel unit :=
  metrics <- _generic_epoch_end test_step_outputs ;;
  log_metrics trainer metrics "test".

(** One validation phase as the trainer runs it: the step hook on every
    batch, then the epoch-end hook on the collected outputs. *)
Definition validation_phase {Input : Type} (model : Input -> list (list Q))
    (loss_fn : list (list Q) -> list (list bool) -> Q)
    (trainer : Trainer) (batches : list (@Batch Input)) : M LitModel unit :=
  outs <- run_steps (validation_step model loss_fn) batches 0 ;;
  validation_epoch_end trainer outs.

(** ** The trainer

    What the module relies on from the trainer that calls its hooks. *)

(** The records that reach the telemetry of the calls [es] the module made
    while [trainer] was in the given state.  A value handed over with
    [self.log] is passed on to the logger unless the trainer is running its
    sanity check; the calls on [self.logger] go to the logger directly;
    [log.info] writes to the Python log, which is no telemetry. *)
Definition delivered (trainer : Trainer) (es : list event) : list event :=
  List.filter
    (fun e =>
       match e with
       | LogScalar _ _ _ _ _ => negb (sanity_checking trainer)
       | LogHyperparams _ _ => true
       | AddFigure _ _ _ => true
       | LogInfo _ => false
       end) es.

(** The trainer during its sanity check. *)
Definition sanity_pass (trainer : Trainer) : Trainer :=
  {| sanity_checking := true;
     current_epoch := current_epoch trainer;
     global_step := global_step trainer;
     dataset_class_names := dataset_class_names trainer |}.

(** [trainer.fit]: the sanity check comes first, a validation phase over the
    first batches of the validation set; then the hook [on_train_start];
    then the epochs. *)
Definition fit {Input : Type} (model : Input -> list (list Q))
    (loss_fn : list (list Q) -> list (list bool) -> Q)
    (trainer : Trainer) (sanity_batches : list (@Batch Input))
    (epochs : M LitModel unit) : M LitModel unit :=
  validation_phase model loss_fn (sanity_pass trainer) sanity_batches ;;
  on_train_start trainer ;;
  epochs.

(** ** Best-metric tracking: specification side *)

Definition valid_mode (m : string) : Prop := m ∈ ["min"; "max"].
Definition valid_name (n : string) : Prop :=
  n ∈ ["loss"; "precision"; "recall"; "f1_score"].

(** The number stored under a monitored name. *)
Definition monitored (n : string) (metrics : Metrics) : Q :=
  match metrics_getitem metrics n with
  | inr (Scalar q) => q
  | _ => 0%Q
  end.

(** The starting value of [best_metric]: the entry of [init_metrics] for the
    monitored name. *)
Definition init_value (n : string) : Q :=
  if decide (n = "loss") then 99999%Q else 0%Q.

(** The comparison selected by the mode. *)
Definition better (md : string) (v best : Q) : bool :=
  if decide (md = "min") then py_lt v best
  else if decide (md = "max") then py_gt v best
  else false.

(** [self] after an update that fired on [metrics]. *)
Definition with_best (metrics : Metrics) (self : LitModel) : LitModel :=
  {| cfg := cfg self;
     best_metric := Some (monitored (name (monitor (cfg self))) metrics);
     class_names := class_names self;
     emitted := emitted self
                ++ [LogHyperparams (cfg self) (best_metrics_of metrics)] |}.

(** [self] after a successful [on_train_start]. *)
Definition started (trainer : Trainer) (self : LitModel) : LitModel :=
  {| cfg := cfg self;
     best_metric := Some (init_value (name (monitor (cfg self))));
     class_names := Some (dataset_class_names trainer);
     emitted := emitted self ++ [LogHyperparams (cfg self) init_metrics] |}.

(** The calls of the tracker over the validation epochs of a run. *)
Fixpoint run_updates (bundles : list Metrics) : M LitModel unit :=
  match bundles with
  | [] => ret tt
  | metrics :: bundles' =>
      _ <- update_best_metric metrics ;; run_updates bundles'
  end.

Definition track (trainer : Trainer) (bundles : list Metrics)
  : M LitModel unit :=
  on_train_start trainer ;; run_updates bundles.


(** The specification's running extrema over a sequence of monitored
    values, from a starting value. *)
Definition running_min (init : Q) (vs : list Q) : Q := fold_left Qmin vs init.
Definition running_max (init : Q) (vs : list Q) : Q := fold_left Qmax vs init.

(** Numbers extended with the specification's [+infinity]. *)
Inductive ext :=
| Fin (q : Q)
| PosInf.

Definition ext_min (a : ext) (v : Q) : ext :=
  match a with
  | PosInf => Fin v
  | Fin q => Fin (Qmin q v)
  end.

(** [min(v1..vn, +infinity)]. *)
Definition min_from_infinity (vs : list Q) : ext := fold_left ext_min vs PosInf.

Definition ext_eq (a b : ext) : Prop :=
  match a, b with
  | Fin x, Fin y => (x == y)%Q
  | PosInf, PosInf => True
  | _, _ => False
  end.

(** The monitored values of a sequence of bundles under [self]'s
    configuration. *)
Definition monitored_values (self : LitModel) (bundles : list Metrics)
  : list Q :=
  map (monitored (name (monitor (cfg self)))) bundles.

(** The tracker ends a run over [bundles] with [best_metric] equal to
    [best]. *)
Definition ends_with_best (trainer : Trainer) (self : LitModel)
    (bundles : list Metrics) (best : Q) : Prop :=
  exists self', track trainer bundles self = (inr tt, self')
                /\ best_metric self' = Some best.

(** Min mode as the specification words it: start at [+infinity], end at
    [min(v1..vn, +infinity)]. *)
Definition best_is_min_from_infinity (trainer : Trainer) (self : LitModel)
    (bundles : list Metrics) : Prop :=
  exists best, ends_with_best trainer self bundles best
               /\ ext_eq (Fin best)
                    (min_from_infinity (monitored_values self bundles)).

(** An update fires at every element that exceeds the running maximum of
    the elements before it (from [init]), and at no other: the call on the
    [i]-th bundle, made in the state the run has reached by then, replaces
    [best_metric] and emits the best record in the first case and leaves
    [self] as it is in the second. *)
Definition fires_on_new_maxima (init : Q) (trainer : Trainer)
    (self : LitModel) (bundles : list Metrics) : Prop :=
  forall (i : nat) (metrics : Metrics),
    bundles !! i = Some metrics ->
    exists self_i r self',
      track trainer (take i bundles) self = (inr tt, self_i)
      /\ update_best_metric metrics self_i = (inr r, self')
      /\ (self' = with_best metrics self_i <->
          (running_max init (take i (monitored_values self bundles))
           < monitored (name (monitor (cfg self))) metrics)%Q)
      /\ (self' = self_i <->
          ~ (running_max init (take i (monitored_values self bundles))
             < monitored (name (monitor (cfg self))) metrics)%Q).

(** Max mode from the starting value [init]: the run ends at
    [max(v1..vn, init)] and the updates fire on the new running maxima. *)
Definition tracks_max_from (init : Q) (trainer : Trainer) (self : LitModel)
    (bundles : list Metrics) : Prop :=
  (exists best, ends_with_best trainer self bundles best
                /\ (best == running_max init (monitored_values self bundles))%Q)
  /\ fires_on_new_maxima init trainer self bundles.

(** What one call of the tracker is said to return: a boolean that is true
    exactly when [best_metric] was replaced. *)
Definition returns_whether_replaced (metrics : Metrics) (self : LitModel)
  : Prop :=
  exists (b : bool) self',
    update_best_metric metrics self = (inr (PyBool b), self')
    /\ (b = true <-> self' = with_best metrics self).

(** Concrete objects used in the examples: a module before training starts,
    a trainer, and a bundle with the given four scalars. *)
Definition fresh (md nm : string) : LitModel :=
  {| cfg := {| monitor := {| mode := md; name := nm |} |};
     best_metric := None; class_names := None; emitted := [] |}.

Definition a_trainer (sanity : bool) (names : list string) : Trainer :=
  {| sanity_checking := sanity; current_epoch := 0; global_step := 0;
     dataset_class_names := names |}.

Definition scalars (l p r f : Q) : Metrics :=
  {| precision := p; recall := r; f1_score := f;
     conf_mats := []; report := []; loss := l |}.

(** ** Epoch aggregation: specification side *)

(** The step outputs of a phase in the format of the aggregation: every
    batch has as many rows of logits as rows of targets, and every row has
    [n] entries, for at least two classes. *)
Definition multilabel_outputs (n : nat) (step_outputs : list Out.t) : Prop :=
  (2 <= n)%nat
  /\ Forall (fun outputs =>
       length (Out.targets outputs) = length (Out.logits outputs)
       /\ Forall (fun row => length row = n) (Out.targets outputs)
       /\ Forall (fun row => length row = n) (Out.logits outputs))
     step_outputs.

(** The number of samples aggregated in an epoch: the batch sizes summed. *)
Definition total_samples (step_outputs : list Out.t) : Z :=
  sklearn.sumZ
    (map (fun outputs => Z.of_nat (length (Out.targets outputs))) step_outputs).

(** All class-sample pairs (target, prediction) of two matrices. *)
Definition class_sample_pairs (y_true y_pred : list (list bool))
  : list (bool * bool) :=
  concat (zip_with zip y_true y_pred).

(** The number of class-sample pairs for which [f target prediction]
    holds. *)
Definition count_pairs (f : bool -> bool -> bool)
    (y_true y_pred : list (list bool)) : Z :=
  sklearn.count_nonzero
    (map (fun tp => f (fst tp) (snd tp)) (class_sample_pairs y_true y_pred)).

Definition TP := count_pairs (fun t p => t && p).
Definition FP := count_pairs (fun t p => negb t && p).
Definition FN := count_pairs (fun t p => t && negb p).

(** A ratio of counts, 0 by convention when the denominator is 0. *)
Definition ratio (num den : Z) : Q :=
  if Z.eqb den 0 then 0%Q else (inject_Z num / inject_Z den)%Q.

(** F1 as the harmonic mean of precision and recall (0 when both are 0). *)
Definition harmonic_mean (p r : Q) : Q :=
  if Qeq_bool (p + r) 0 then 0%Q else (2 * p * r / (p + r))%Q.

(** The arithmetic mean of the per-batch losses. *)
Definition mean (l : list Q) : Q :=
  (fold_right Qplus 0 l / inject_Z (Z.of_nat (length l)))%Q.

(** The bundle [_generic_epoch_end] builds from the accumulated targets and
    predictions, the class names and the average loss. *)
Definition bundle (y_true y_pred : list (list bool)) (names : list string)
    (avg_loss : Q) : Metrics :=
  let prf := sklearn.precision_recall_fscore_support_micro y_true y_pred in
  {| precision := fst (fst prf); recall := snd (fst prf); f1_score := snd prf;
     conf_mats := sklearn.multilabel_confusion_matrix y_true y_pred;
     report := zip_with (sklearn.report_row_of y_true y_pred)
                 (seq 0 (sklearn.n_labels y_true)) names;
     loss := avg_loss |}.

(** Two batches over two classes, used in the examples: targets
    [[1,0],[1,1]] and logits whose thresholding gives [[1,0],[0,1]]. *)
Definition two_batches : list Out.t :=
  [ {| Out.loss := 1#2; Out.targets := [[true; false]];
       Out.logits := [[3#2; -1]]%Q |};
    {| Out.loss := 1#4; Out.targets := [[true; true]];
       Out.logits := [[-(1#3); 2]]%Q |} ].

(** Three samples over three classes whose middle class never occurs and is
    never predicted. *)
Definition silent_class_batches : list Out.t :=
  [ {| Out.loss := 1#2; Out.targets := [[true; false; false]; [false; false; true]];
       Out.logits := [[1; -1; -1]; [1; -2; 3]]%Q |};
    {| Out.loss := 1#4; Out.targets := [[true; false; true]];
       Out.logits := [[-1; 0; 2]]%Q |} ].

(** A module whose [on_train_start] has run with the given class names. *)
Definition trained (md nm : string) (names : list string) : LitModel :=
  started (a_trainer false names) (fresh md nm).

(** ** Diagnostics and hooks: specification side *)

(** [self] after it has sent out the events [es]. *)
Definition emits (es : list event) (self : LitModel) : LitModel :=
  {| cfg := cfg self; best_metric := best_metric self;
     class_names := class_names self; emitted := emitted self ++ es |}.

(** A subplot of the figure that shows a class, and one left blank. *)
Definition class_axes (cm : list (list Z)) (label : string) : Axes :=
  {| axison := false; image := Some cm; has_colorbar := false;
     title := py_slice_to 20 label |}.

Definition blank_axes : Axes :=
  {| axison := false; image := None; has_colorbar := false; title := "" |}.

(** The events of one call of [log_metrics] whose figure is [fig] and whose
    dump of matrices is [entries]. *)
Definition diagnostics (trainer : Trainer) (metrics : Metrics)
    (split : string) (fig : list Axes)
    (entries : list (string * list (list Z))) : list event :=
  [ LogScalar ("precision/" +:+ split) (precision metrics)
      None (Some true) false;
    LogScalar ("recall/" +:+ split) (recall metrics) None (Some true) false;
    LogScalar ("f1_score/" +:+ split) (f1_score metrics)
      None (Some true) false;
    LogInfo (InfoEpoch split (current_epoch trainer));
    LogInfo (InfoReport split (report metrics));
    AddFigure ("confusion matrix/" +:+ split) fig (global_step trainer);
    LogInfo (InfoConfMats split entries) ].

(** The diagnostic emission as the specification words it: one composite
    image in which every class of [class_names] has its subplot. *)
Definition renders_every_class (trainer : Trainer) (metrics : Metrics)
    (split : string) (self : LitModel) : Prop :=
  exists names fig entries,
    class_names self = Some names
    /\ log_metrics trainer metrics split self
       = (inr tt, emits (diagnostics trainer metrics split fig entries) self)
    /\ forall i label,
         names !! i = Some label ->
         exists cm, conf_mats metrics !! i = Some cm
                    /\ fig !! i = Some (class_axes cm label).

(** A bundle over [n] classes that all have the same confusion matrix. *)
Definition uniform_bundle (n : nat) : Metrics :=
  {| precision := 1; recall := 1; f1_score := 1;
     conf_mats := repeat [[1; 0]; [0; 1]] n; report := []; loss := 0 |}.

(** The scalar records among a list of events. *)
Definition is_scalar (e : event) : bool :=
  match e with LogScalar _ _ _ _ _ => true | _ => false end.

Definition scalar_records (es : list event) : list event :=
  List.filter is_scalar es.

(** The running-loss record of one validation batch. *)
Definition val_loss_record {Input : Type} (model : Input -> list (list Q))
    (loss_fn : list (list Q) -> list (list bool) -> Q)
    (batch : @Batch Input) : event :=
  LogScalar "loss/val" (loss_fn (model (data batch)) (labels batch))
    (Some true) (Some true) true.

(** The start of a run as the specification words it: with a monitor that
    is not valid the run fails before any batch has been processed, that is
    with the module exactly as it was. *)
Definition fails_before_any_batch {Input : Type}
    (model : Input -> list (list Q))
    (loss_fn : list (list Q) -> list (list bool) -> Q)
    (trainer : Trainer) (sanity_batches : list (@Batch Input))
    (epochs : M LitModel unit) (self : LitModel) : Prop :=
  fit model loss_fn trainer sanity_batches epochs self
  = (inl AssertionError, self).

(** The pairing of mode and name that the specification requires of a
    monitor configuration: [min] for [loss], [max] for every other name. *)
Definition paired (m : MonitorCfg) : Prop :=
  (name m = "loss" -> mode m = "min")
  /\ (name m <> "loss" -> mode m = "max").

(** A network and a loss for the examples: constant logits over two
    classes and a constant loss. *)
Definition const_model (_ : unit) : list (list Q) := [[1; -1]]%Q.
Definition const_loss (_ : list (list Q)) (_ : list (list bool)) : Q := 1#2.
Definition a_batch : @Batch unit :=
  {| data := tt; labels := [[true; false]] |}.

(** ** Further specification-side definitions *)

(** The metrics dictionary of a hyperparameter record. *)
Definition hyperparams_of (e : event) : option (gmap string Q) :=
  match e with
  | LogHyperparams _ metrics => Some metrics
  | _ => None
  end.

(** The metrics of the most recent hyperparameter record among [es]. *)
Fixpoint last_hyperparams (es : list event) : option (gmap string Q) :=
  match es with
  | [] => None
  | e :: es' =>
      match last_hyperparams es' with
      | Some metrics => Some metrics
      | None => hyperparams_of e
      end
  end.

(** The best record on the telemetry side agrees with the tracker: the most
    recent hyperparameter record holds, under the key of the monitored
    name, the current value of [best_metric]. *)
Definition in_sync (self : LitModel) : Prop :=
  exists metrics best,
    last_hyperparams (emitted self) = Some metrics
    /\ best_metric self = Some best
    /\ metrics !! ("best_metrics/" +:+ name (monitor (cfg self))) = Some best.

(** The events among [es] that are not hyperparameter records leave the
    best record alone. *)
Definition no_hyperparams (es : list event) : Prop :=
  Forall (fun e => hyperparams_of e = None) es.

(** What a step hook returns on a batch. *)
Definition step_output {Input : Type} (model : Input -> list (list Q))
    (loss_fn : list (list Q) -> list (list bool) -> Q)
    (batch : @Batch Input) : Out.t :=
  {| Out.loss := loss_fn (model (data batch)) (labels batch);
     Out.targets := labels batch;
     Out.logits := model (data batch) |}.

(** The running-loss record of one training batch. *)
Definition train_loss_record {Input : Type} (model : Input -> list (list Q))
    (loss_fn : list (list Q) -> list (list bool) -> Q)
    (batch : @Batch Input) : event :=
  LogScalar "loss/train" (loss_fn (model (data batch)) (labels batch))
    (Some true) (Some true) true.

(** One training phase and one test phase as the trainer runs them: the
    step hook on every batch, then the epoch-end hook on the collected
    outputs. *)
Definition training_phase {Input : Type} (model : Input -> list (list Q))
    (loss_fn : list (list Q) -> list (list bool) -> Q)
    (trainer : Trainer) (batches : list (@Batch Input)) : M LitModel unit :=
  outs <- run_steps (training_step model loss_fn) batches 0 ;;
  training_epoch_end trainer outs.

Definition test_phase {Input : Type} (model : Input -> list (list Q))
    (loss_fn : list (list Q) -> list (list bool) -> Q)
    (trainer : Trainer) (batches : list (@Batch Input)) : M LitModel unit :=
  outs <- run_steps (test_step model loss_fn) batches 0 ;;
  test_epoch_end trainer outs.

(** The figure and the dump of matrices that [log_metrics] builds. *)
Definition figure_of (metrics : Metrics) (names : list string) : list Axes :=
  snd (plot_loop (conf_mats metrics) names (map set_axis_off (subplots 9 5))).

Definition dump_of (metrics : Metrics) (names : list string)
  : list (string * list (list Z)) :=
  fst (plot_loop (conf_mats metrics) names (map set_axis_off (subplots 9 5))).

(** The axes of a figure on which a matrix was drawn. *)
Definition drawn (fig : list Axes) : list Axes :=
  List.filter (fun ax => match image ax with Some _ => true | None => false end)
    fig.

(** The samples of a phase as (target row, prediction row) pairs. *)
Definition samples (step_outputs : list Out.t)
  : list (list bool * list bool) :=
  flat_map (fun outputs =>
              zip (Out.targets outputs)
                (map (map sigmoid_gt_half) (Out.logits outputs)))
    step_outputs.

(** * Verification *)

(** ** Running the tracker *)

Lemma valid_name_cases n :
  valid_name n ->
  n = "loss" \/ n = "precision" \/ n = "recall" \/ n = "f1_score".
Proof.
  unfold valid_name. rewrite !elem_of_cons, elem_of_nil. tauto.
Qed.

Lemma valid_mode_cases m : valid_mode m -> m = "min" \/ m = "max".
Proof.
  unfold valid_mode. rewrite !elem_of_cons, elem_of_nil. tauto.
Qed.

Lemma metrics_getitem_scalar n metrics :
  valid_name n ->
  metrics_getitem metrics n = inr (Scalar (monitored n metrics)).
Proof.
  intros H. destruct (valid_name_cases n H) as [-> | [-> | [-> | ->]]];
    reflexivity.
Qed.

Lemma on_train_start_ok trainer self :
  valid_mode (mode (monitor (cfg self))) ->
  valid_name (name (monitor (cfg self))) ->
  on_train_start trainer self = (inr tt, started trainer self).
Proof.
  intros Hm Hn. destruct self as [[[md nm]] bm cn em]. simpl in *.
  unfold on_train_start, bind, get. simpl.
  rewrite (bool_decide_eq_true_2 _ Hm). simpl.
  rewrite (bool_decide_eq_true_2 _ Hn). simpl.
  destruct (valid_name_cases nm Hn) as [-> | [-> | [-> | ->]]]; reflexivity.
Qed.

Lemma mode_and_better_run m cmp metrics self best :
  valid_name (name (monitor (cfg self))) ->
  best_metric self = Some best ->
  mode_and_better m cmp metrics self =
    (inr (if decide (mode (monitor (cfg self)) = m)
          then cmp (monitored (name (monitor (cfg self))) metrics) best
          else false), self).
Proof.
  intros Hn Hb. unfold mode_and_better, getattr, bind, get.
  destruct (decide (mode (monitor (cfg self)) = m)); [|reflexivity].
  rewrite (metrics_getitem_scalar _ metrics Hn). simpl. rewrite Hb.
  reflexivity.
Qed.

Lemma update_best_metric_run metrics self best :
  valid_name (name (monitor (cfg self))) ->
  best_metric self = Some best ->
  update_best_metric metrics self =
    (inr PyNone,
     if better (mode (monitor (cfg self)))
          (monitored (name (monitor (cfg self))) metrics) best
     then with_best metrics self else self).
Proof.
  intros Hn Hb. unfold update_best_metric, bind at 1 2 3. unfold get at 1.
  rewrite (mode_and_better_run "min" py_lt metrics self best Hn Hb).
  rewrite (mode_and_better_run "max" py_gt metrics self best Hn Hb).
  unfold better.
  destruct (decide (mode (monitor (cfg self)) = "min")) as [Hmin | Hmin].
  - destruct (decide (mode (monitor (cfg self)) = "max")) as [Hmax | Hmax];
      [congruence|].
    destruct (py_lt _ best); [|reflexivity].
    unfold bind, emit, modify, set_best_metric, lift.
    rewrite (metrics_getitem_scalar _ metrics Hn). reflexivity.
  - destruct (decide (mode (monitor (cfg self)) = "max")) as [Hmax | Hmax];
      [|reflexivity].
    destruct (py_gt _ best); [|reflexivity].
    unfold bind, emit, modify, set_best_metric, lift.
    rewrite (metrics_getitem_scalar _ metrics Hn). reflexivity.
Qed.

Lemma py_lt_iff x y : py_lt x y = true <-> (x < y)%Q.
Proof.
  unfold py_lt. rewrite Qlt_alt. destruct (x ?= y)%Q; split; congruence.
Qed.

Lemma py_gt_iff x y : py_gt x y = true <-> (y < x)%Q.
Proof. apply py_lt_iff. Qed.

Lemma py_lt_Qmin v best : (if py_lt v best then v else best) = Qmin best v.
Proof.
  unfold py_lt, Qmin, GenericMinMax.gmin.
  rewrite <- (Qcompare_antisym v best).
  destruct (v ?= best)%Q; reflexivity.
Qed.

Lemma py_gt_Qmax v best : (if py_gt v best then v else best) = Qmax best v.
Proof.
  unfold py_gt, py_lt, Qmax, GenericMinMax.gmax.
  destruct (best ?= v)%Q; reflexivity.
Qed.

(** A fired update is visible: the record it emits lengthens the trace. *)
Lemma with_best_neq metrics self : with_best metrics self <> self.
Proof.
  intros H. apply (f_equal (fun s => length (emitted s))) in H.
  simpl in H. rewrite length_app in H. simpl in H. lia.
Qed.

(** The state reached by a sequence of updates: the configuration is kept
    and [best_metric] is folded through the comparison of the mode. *)
Lemma run_updates_run bundles : forall self best,
  valid_name (name (monitor (cfg self))) ->
  best_metric self = Some best ->
  exists self',
    run_updates bundles self = (inr tt, self')
    /\ cfg self' = cfg self
    /\ best_metric self' =
       Some (fold_left
               (fun b metrics =>
                  let v := monitored (name (monitor (cfg self))) metrics in
                  if better (mode (monitor (cfg self))) v b then v else b)
               bundles best).
Proof.
  induction bundles as [|metrics bundles IH]; intros self best Hn Hb.
  - exists self. repeat split; assumption.
  - simpl. unfold bind at 1.
    rewrite (update_best_metric_run metrics self best Hn Hb).
    destruct (better _ _ best) eqn:Hcmp.
    + destruct (IH (with_best metrics self) _ Hn eq_refl)
        as (self' & Hrun & Hcfg & Hbest).
      exists self'. repeat split; assumption.
    + destruct (IH self best Hn Hb) as (self' & Hrun & Hcfg & Hbest).
      exists self'. repeat split; assumption.
Qed.

Lemma track_run trainer self bundles :
  valid_mode (mode (monitor (cfg self))) ->
  valid_name (name (monitor (cfg self))) ->
  exists self',
    track trainer bundles self = (inr tt, self')
    /\ cfg self' = cfg self
    /\ best_metric self' =
       Some (fold_left
               (fun b metrics =>
                  let v := monitored (name (monitor (cfg self))) metrics in
                  if better (mode (monitor (cfg self))) v b then v else b)
               bundles (init_value (name (monitor (cfg self))))).
Proof.
  intros Hm Hn. unfold track, bind.
  rewrite (on_train_start_ok trainer self Hm Hn).
  apply (run_updates_run bundles (started trainer self)); [exact Hn|].
  reflexivity.
Qed.

Lemma fold_min_mode nm bundles : forall best,
  fold_left
    (fun b metrics =>
       let v := monitored nm metrics in
       if better "min" v b then v else b) bundles best
  = running_min best (map (monitored nm) bundles).
Proof.
  unfold running_min.
  induction bundles as [|metrics bundles IH]; intros best; [reflexivity|].
  simpl. rewrite <- IH. f_equal. apply py_lt_Qmin.
Qed.

Lemma fold_max_mode nm bundles : forall best,
  fold_left
    (fun b metrics =>
       let v := monitored nm metrics in
       if better "max" v b then v else b) bundles best
  = running_max best (map (monitored nm) bundles).
Proof.
  unfold running_max.
  induction bundles as [|metrics bundles IH]; intros best; [reflexivity|].
  simpl. rewrite <- IH. f_equal. apply py_gt_Qmax.
Qed.

Lemma Qmin_cases a b : Qmin a b = a \/ Qmin a b = b.
Proof. unfold Qmin, GenericMinMax.gmin. destruct (a ?= b)%Q; auto. Qed.

Lemma Qmax_cases a b : Qmax a b = a \/ Qmax a b = b.
Proof. unfold Qmax, GenericMinMax.gmax. destruct (a ?= b)%Q; auto. Qed.

(** The folds are the least and the greatest element of the sequence
    extended with the starting value. *)
Lemma running_min_least vs : forall init,
  In (running_min init vs) (init :: vs)
  /\ forall v, In v (init :: vs) -> (running_min init vs <= v)%Q.
Proof.
  unfold running_min.
  induction vs as [|x vs IH]; intros init; simpl.
  - split; [left; reflexivity|]. intros v [<- | []]. apply Qle_refl.
  - destruct (IH (Qmin init x)) as [Hin Hle]. split.
    + destruct Hin as [Heq | Hin]; [|right; right; exact Hin].
      rewrite <- Heq.
      destruct (Qmin_cases init x) as [-> | ->]; [left|right; left]; reflexivity.
    + intros v [<- | [<- | Hv]].
      * eapply Qle_trans; [apply Hle; left; reflexivity|apply Q.le_min_l].
      * eapply Qle_trans; [apply Hle; left; reflexivity|apply Q.le_min_r].
      * apply Hle. right. exact Hv.
Qed.

Lemma running_max_greatest vs : forall init,
  In (running_max init vs) (init :: vs)
  /\ forall v, In v (init :: vs) -> (v <= running_max init vs)%Q.
Proof.
  unfold running_max.
  induction vs as [|x vs IH]; intros init; simpl.
  - split; [left; reflexivity|]. intros v [<- | []]. apply Qle_refl.
  - destruct (IH (Qmax init x)) as [Hin Hle]. split.
    + destruct Hin as [Heq | Hin]; [|right; right; exact Hin].
      rewrite <- Heq.
      destruct (Qmax_cases init x) as [-> | ->]; [left|right; left]; reflexivity.
    + intros v [<- | [<- | Hv]].
      * eapply Qle_trans; [apply Q.le_max_l|apply Hle; left; reflexivity].
      * eapply Qle_trans; [apply Q.le_max_r|apply Hle; left; reflexivity].
      * apply Hle. right. exact Hv.
Qed.

Lemma bind_inr_inv {S A B} (m : M S A) (k : A -> M S B) s r s' :
  bind m k s = (inr r, s') ->
  exists a s1, m s = (inr a, s1) /\ k a s1 = (inr r, s').
Proof.
  unfold bind. destruct (m s) as [[e | a] s1]; intros H; [discriminate|].
  exists a, s1. split; [reflexivity|exact H].
Qed.

(** ** Best-metric tracking *)

(** C1 (as amended).  In min mode [on_train_start] sets [best_metric] to the
    entry of [init_metrics] for the monitored name (99999 for [loss], 0 for
    the three other names), and after any sequence of validation bundles
    [best_metric] is the minimum of the monitored values and that starting
    value: it is one of them and it is below or equal to each. *)
Theorem C1_min_mode_tracks_minimum trainer self bundles :
  mode (monitor (cfg self)) = "min" ->
  valid_name (name (monitor (cfg self))) ->
  let init := init_value (name (monitor (cfg self))) in
  let vs := monitored_values self bundles in
  (exists self0, on_train_start trainer self = (inr tt, self0)
                 /\ best_metric self0 = Some init)
  /\ ends_with_best trainer self bundles (running_min init vs)
  /\ In (running_min init vs) (init :: vs)
  /\ (forall v, In v (init :: vs) -> (running_min init vs <= v)%Q).
Proof.
  intros Hmode Hn init vs.
  assert (Hm : valid_mode (mode (monitor (cfg self)))).
  { rewrite Hmode. unfold valid_mode. apply elem_of_cons. left. reflexivity. }
  split; [|split].
  - exists (started trainer self). split; [|reflexivity].
    apply on_train_start_ok; assumption.
  - destruct (track_run trainer self bundles Hm Hn) as (self' & Hrun & _ & Hb).
    exists self'. split; [exact Hrun|].
    rewrite Hb, Hmode, fold_min_mode. reflexivity.
  - apply running_min_least.
Qed.

(** C1 as worded fails: with [mode = min] and [name = loss] the starting
    value is 99999, so a first loss of 100000 leaves [best_metric] at 99999
    instead of 100000; with [name = precision] the starting value is 0 and a
    precision of 1/2 never replaces it. *)
Lemma C1_counterexample :
  ~ best_is_min_from_infinity (a_trainer false ["a"; "b"])
      (fresh "min" "loss") [scalars 100000 0 0 0]
  /\ ~ best_is_min_from_infinity (a_trainer false ["a"; "b"])
         (fresh "min" "precision") [scalars (1#2) (1#2) (1#2) (1#2)].
Proof.
  split; intros (best & (self' & Hrun & Hb) & Heq);
    vm_compute in Hrun; injection Hrun as <-; simpl in Hb;
    injection Hb as <-; vm_compute in Heq; discriminate Heq.
Qed.

Lemma tracks_max_from_init trainer self bundles :
  mode (monitor (cfg self)) = "max" ->
  valid_name (name (monitor (cfg self))) ->
  tracks_max_from (init_value (name (monitor (cfg self))))
    trainer self bundles.
Proof.
  intros Hmode Hn.
  assert (Hm : valid_mode (mode (monitor (cfg self)))).
  { rewrite Hmode. unfold valid_mode. apply elem_of_cons. right.
    apply elem_of_cons. left. reflexivity. }
  split.
  - destruct (track_run trainer self bundles Hm Hn) as (self' & Hrun & _ & Hb).
    eexists. split; [exists self'; split; [exact Hrun|exact Hb]|].
    rewrite Hmode, fold_max_mode. reflexivity.
  - intros i metrics Hi.
    destruct (track_run trainer self (take i bundles) Hm Hn)
      as (self_i & Hrun & Hcfg & Hb).
    rewrite Hmode, fold_max_mode in Hb.
    assert (Hn_i : valid_name (name (monitor (cfg self_i))))
      by (rewrite Hcfg; exact Hn).
    pose proof (update_best_metric_run metrics self_i _ Hn_i Hb) as Hupd.
    rewrite Hcfg, Hmode in Hupd. unfold monitored_values.
    rewrite firstn_map.
    set (rmax := running_max _ (map _ (take i bundles))) in *.
    set (v := monitored _ metrics) in *.
    assert (Hcmp : better "max" v rmax = true <-> (rmax < v)%Q)
      by apply py_gt_iff.
    exists self_i, PyNone. eexists. split; [exact Hrun|].
    split; [exact Hupd|].
    destruct (better "max" v rmax); split; split.
    + intros _. apply Hcmp. reflexivity.
    + reflexivity.
    + intros H. exfalso. exact (with_best_neq _ _ H).
    + intros H. exfalso. apply H, Hcmp. reflexivity.
    + intros H. exfalso. symmetry in H. exact (with_best_neq _ _ H).
    + intros H. apply Hcmp in H. discriminate H.
    + intros _ H. apply Hcmp in H. discriminate H.
    + reflexivity.
Qed.

(** C2.  In max mode, on a monitor whose mode and name are paired as the
    specification requires (so the name is [precision], [recall] or
    [f1_score]), the run starts from 0; after any sequence of validation
    bundles [best_metric] is [max(v1..vn, 0)], and an update (best record
    emitted, [best_metric] replaced) fires exactly at the elements that
    exceed the running maximum so far. *)
Theorem C2_max_mode_tracks_maximum trainer self bundles :
  mode (monitor (cfg self)) = "max" ->
  valid_name (name (monitor (cfg self))) ->
  paired (monitor (cfg self)) ->
  tracks_max_from 0 trainer self bundles.
Proof.
  intros Hmode Hn [Hloss _].
  pose proof (tracks_max_from_init trainer self bundles Hmode Hn) as H.
  unfold init_value in H.
  destruct (decide (name (monitor (cfg self)) = "loss")) as [Heq | Hne];
    [|exact H].
  specialize (Hloss Heq). rewrite Hmode in Hloss. discriminate Hloss.
Qed.

(** C4 (as amended).  [update_best_metric] has no [return]: whenever the
    call completes it hands back [None], never a boolean.  What changes with
    the comparison is the state: once [on_train_start] has run,
    [best_metric] is replaced by [metrics[name]] and the best record is
    emitted exactly when the comparison of the configured mode holds, and
    [self] is left as it was otherwise. *)
Theorem C4_update_returns_none metrics self :
  (forall r self', update_best_metric metrics self = (inr r, self') ->
                   r = PyNone)
  /\ (forall best,
        valid_name (name (monitor (cfg self))) ->
        best_metric self = Some best ->
        let replaced :=
          better (mode (monitor (cfg self)))
            (monitored (name (monitor (cfg self))) metrics) best in
        exists self',
          update_best_metric metrics self = (inr PyNone, self')
          /\ (self' = with_best metrics self <-> replaced = true)
          /\ (self' = self <-> replaced = false)).
Proof.
  split.
  - intros r self' H. unfold update_best_metric in H.
    apply bind_inr_inv in H as (s0 & s1 & _ & H).
    apply bind_inr_inv in H as (lt & s2 & _ & H).
    apply bind_inr_inv in H as (gt & s3 & _ & H).
    apply bind_inr_inv in H as (u & s4 & _ & H).
    unfold ret in H. congruence.
  - intros best Hn Hb replaced.
    rewrite (update_best_metric_run metrics self best Hn Hb).
    fold replaced. eexists. split; [reflexivity|].
    destruct replaced; split; split; try reflexivity; try discriminate.
    + intros H. exfalso. exact (with_best_neq _ _ H).
    + intros H. exfalso. symmetry in H. exact (with_best_neq _ _ H).
Qed.

(** C4 as worded fails: on a call that does replace [best_metric] (loss 1/2
    against the starting 99999 in min mode) the returned object is [None],
    not [True]. *)
Lemma C4_counterexample :
  ~ returns_whether_replaced (scalars (1#2) 1 1 1)
      (started (a_trainer false ["a"; "b"]) (fresh "min" "loss")).
Proof.
  intros (b & self' & Hrun & _). vm_compute in Hrun. discriminate Hrun.
Qed.

(** ** Running the aggregation *)

Lemma py_truediv_length (x : Q) (l : list Q) :
  py_truediv x (Z.of_nat (length l)) =
    match l with
    | [] => inl ZeroDivisionError
    | _ :: _ => inr (x / inject_Z (Z.of_nat (length l)))%Q
    end.
Proof. destruct l; reflexivity. Qed.

(** The outcome of [_generic_epoch_end] in every case: the division fails
    on an empty phase, a missing [class_names] attribute or a list of names
    of the wrong length fails next, and otherwise the bundle is returned.
    [self] is never modified. *)
Lemma _generic_epoch_end_run step_outputs self :
  _generic_epoch_end step_outputs self =
    (match step_outputs with
     | [] => inl ZeroDivisionError
     | _ :: _ =>
         match class_names self with
         | None => inl AttributeError
         | Some names =>
             if Nat.eqb (sklearn.n_labels (all_targets step_outputs))
                  (length names)
             then inr (bundle (all_targets step_outputs)
                         (all_preds step_outputs) names
                         (py_sum (all_loss step_outputs)
                          / inject_Z (Z.of_nat (length step_outputs)))%Q)
             else inl ValueError
         end
     end, self).
Proof.
  unfold _generic_epoch_end, bundle.
  destruct (sklearn.precision_recall_fscore_support_micro _ _) as [[p r] f].
  unfold getattr, bind, get. rewrite py_truediv_length.
  unfold all_loss at 1. destruct step_outputs as [|o outs]; [reflexivity|].
  cbn [map lift]. unfold ret at 1.
  destruct (class_names self) as [names|]; [|reflexivity].
  unfold ret at 1. unfold sklearn.classification_report.
  destruct (Nat.eqb _ _); [|reflexivity].
  unfold lift, ret, all_loss. rewrite length_map. reflexivity.
Qed.

Lemma fold_left_Qplus l : forall a,
  (fold_left Qplus l a == a + fold_right Qplus 0 l)%Q.
Proof.
  induction l as [|x l IH]; intros a; simpl.
  - ring.
  - rewrite IH. ring.
Qed.

Lemma py_sum_mean l :
  (py_sum l / inject_Z (Z.of_nat (length l)) == mean l)%Q.
Proof.
  unfold py_sum, mean. rewrite fold_left_Qplus. 
  apply Qdiv_comp; [ring|reflexivity].
Qed.

(** ** The average loss *)

(** C10.  On a non-empty sequence of step outputs the quotient
    [sum(all_loss) / len(all_loss)] is defined and is the arithmetic mean
    of the per-batch losses, the aggregation never fails by a division by
    zero, and a returned bundle carries that mean as its loss; on the empty
    sequence the aggregation raises [ZeroDivisionError] and returns no
    bundle. *)
Theorem C10_average_loss_needs_a_batch :
  (forall step_outputs self,
     step_outputs <> [] ->
     (exists avg,
        py_truediv (py_sum (all_loss step_outputs))
          (Z.of_nat (length (all_loss step_outputs))) = inr avg
        /\ (avg == mean (all_loss step_outputs))%Q)
     /\ fst (_generic_epoch_end step_outputs self) <> inl ZeroDivisionError
     /\ (forall metrics self',
           _generic_epoch_end step_outputs self = (inr metrics, self') ->
           (loss metrics == mean (all_loss step_outputs))%Q))
  /\ (forall self,
        _generic_epoch_end [] self = (inl ZeroDivisionError, self)).
Proof.
  split.
  - intros outs self Hne.
    destruct outs as [|o outs]; [contradiction|]. split; [|split].
    + rewrite py_truediv_length. cbn [all_loss map].
      eexists. split; [reflexivity|]. apply py_sum_mean.
    + rewrite _generic_epoch_end_run. cbn [fst].
      destruct (class_names self); [|discriminate].
      destruct (Nat.eqb _ _); discriminate.
    + intros metrics self' H. rewrite _generic_epoch_end_run in H.
      destruct (class_names self) as [names|]; [|discriminate].
      destruct (Nat.eqb _ _); [|discriminate].
      injection H as <- _. cbn [loss bundle].
      rewrite <- py_sum_mean. unfold all_loss. rewrite length_map.
      reflexivity.
  - intros self. apply _generic_epoch_end_run.
Qed.

(** ** Facts about the accumulated matrices *)

Lemma all_targets_length outs :
  Z.of_nat (length (all_targets outs)) = total_samples outs.
Proof.
  unfold all_targets, total_samples.
  induction outs as [|o outs IH]; [reflexivity|].
  cbn [flat_map map sklearn.sumZ fold_right]. rewrite length_app.
  fold (sklearn.sumZ
          (map (fun o => Z.of_nat (length (Out.targets o))) outs)).
  rewrite <- IH. lia.
Qed.

Lemma all_preds_length n outs :
  multilabel_outputs n outs ->
  length (all_preds outs) = length (all_targets outs).
Proof.
  intros [_ Hwf]. unfold all_preds, all_targets.
  induction Hwf as [|o outs (Hlen & _ & _) _ IH]; [reflexivity|].
  cbn [flat_map]. rewrite !length_app, length_map, IH. lia.
Qed.

Lemma all_targets_rows n outs :
  multilabel_outputs n outs ->
  Forall (fun row => length row = n) (all_targets outs).
Proof.
  intros [_ Hwf]. unfold all_targets.
  induction Hwf as [|o outs (_ & Hrows & _) _ IH]; [constructor|].
  cbn [flat_map]. apply Forall_app. split; assumption.
Qed.

Lemma all_preds_rows n outs :
  multilabel_outputs n outs ->
  Forall (fun row => length row = n) (all_preds outs).
Proof.
  intros [_ Hwf]. unfold all_preds.
  induction Hwf as [|o outs (_ & _ & Hrows) _ IH]; [constructor|].
  cbn [flat_map]. apply Forall_app. split; [|assumption].
  apply Forall_map. eapply Forall_impl; [exact Hrows|].
  intros row Hrow. cbn. rewrite length_map. exact Hrow.
Qed.

(** With at least one sample the number of labels is the common width. *)
Lemma all_targets_n_labels n outs :
  multilabel_outputs n outs ->
  0 < total_samples outs ->
  sklearn.n_labels (all_targets outs) = n.
Proof.
  intros Hwf Hpos. pose proof (all_targets_rows n outs Hwf) as Hrows.
  rewrite <- all_targets_length in Hpos.
  destruct (all_targets outs) as [|row rows]; [simpl in Hpos; lia|].
  inversion Hrows; subst. reflexivity.
Qed.

(** ** Facts about the counts of one label *)

Lemma count_nonzero_bounds (a b : list bool) :
  length a = length b ->
  let both := sklearn.count_nonzero (zip_with andb a b) in
  0 <= both
  /\ both <= sklearn.count_nonzero a
  /\ both <= sklearn.count_nonzero b
  /\ sklearn.count_nonzero a + sklearn.count_nonzero b - both
     <= Z.of_nat (length a).
Proof.
  revert b. induction a as [|x a IH]; intros [|y b] Hlen;
    try discriminate Hlen.
  - cbn. lia.
  - injection Hlen as Hlen. specialize (IH b Hlen).
    cbn [zip_with sklearn.count_nonzero length] in *.
    destruct x, y; cbn [andb Z.b2z]; lia.
Qed.

Lemma column_length j (y : list (list bool)) :
  length (sklearn.column j y) = length y.
Proof. apply length_map. Qed.

(** A column of zeros counts to zero. *)
Lemma count_nonzero_zero_column j (y : list (list bool)) :
  (forall row, In row y -> nth j row false = false) ->
  sklearn.count_nonzero (sklearn.column j y) = 0.
Proof.
  induction y as [|row y IH]; intros H; [reflexivity|].
  cbn [sklearn.column map sklearn.count_nonzero].
  rewrite (H row (or_introl eq_refl)).
  fold (sklearn.column j y). rewrite IH; [reflexivity|].
  intros r Hr. apply H. right. exact Hr.
Qed.

(** The four cells of a label's matrix are counts, and they add up to the
    number of rows. *)
Lemma confusion_matrix_of_cells (y_true y_pred : list (list bool)) j :
  length y_pred = length y_true ->
  exists tn fp fn tp,
    sklearn.confusion_matrix_of y_true y_pred j = [[tn; fp]; [fn; tp]]
    /\ 0 <= tn /\ 0 <= fp /\ 0 <= fn /\ 0 <= tp
    /\ tn + fp + fn + tp = Z.of_nat (length y_true).
Proof.
  intros Hlen. unfold sklearn.confusion_matrix_of.
  assert (Hcol : length (sklearn.column j y_true)
                 = length (sklearn.column j y_pred))
    by (rewrite !column_length; symmetry; exact Hlen).
  pose proof (count_nonzero_bounds _ _ Hcol) as (H0 & Ht & Hp & HN).
  rewrite column_length in HN.
  unfold sklearn.tp_sum, sklearn.pred_sum, sklearn.true_sum.
  do 4 eexists. split; [reflexivity|]. lia.
Qed.

Lemma lookup_map {A B} (f : A -> B) (l : list A) i :
  map f l !! i = f <$> (l !! i).
Proof.
  revert i. induction l as [|x l IH]; intros [|i]; try reflexivity.
  apply IH.
Qed.

Lemma multilabel_confusion_matrix_lookup y_true y_pred j :
  (j < sklearn.n_labels y_true)%nat ->
  sklearn.multilabel_confusion_matrix y_true y_pred !! j
  = Some (sklearn.confusion_matrix_of y_true y_pred j).
Proof.
  intros Hj. unfold sklearn.multilabel_confusion_matrix.
  rewrite lookup_map, lookup_seq_lt by exact Hj. reflexivity.
Qed.

Lemma multilabel_confusion_matrix_length y_true y_pred :
  length (sklearn.multilabel_confusion_matrix y_true y_pred)
  = sklearn.n_labels y_true.
Proof.
  unfold sklearn.multilabel_confusion_matrix.
  rewrite length_map. apply length_seq.
Qed.

(** What a successful aggregation tells about its input. *)
Lemma _generic_epoch_end_inv step_outputs self metrics self' :
  _generic_epoch_end step_outputs self = (inr metrics, self') ->
  self' = self
  /\ step_outputs <> []
  /\ exists names,
       class_names self = Some names
       /\ sklearn.n_labels (all_targets step_outputs) = length names
       /\ metrics = bundle (all_targets step_outputs)
                      (all_preds step_outputs) names
                      (py_sum (all_loss step_outputs)
                       / inject_Z (Z.of_nat (length step_outputs)))%Q.
Proof.
  rewrite _generic_epoch_end_run. intros H.
  destruct step_outputs as [|o outs]; [discriminate|].
  destruct (class_names self) as [names|]; [|discriminate].
  destruct (Nat.eqb _ _) eqn:Heq; [|discriminate].
  injection H as <- <-. apply Nat.eqb_eq in Heq.
  split; [reflexivity|]. split; [discriminate|].
  exists names. repeat split. exact Heq.
Qed.

(** ** Confusion matrices *)

(** C6.  A bundle produced by the aggregation of at least one sample holds
    one 2x2 confusion matrix per class: their number is the number of
    classes, which is also the number of class names, and the four cells of
    each are counts that add up to the number of samples aggregated. *)
Theorem C6_confusion_matrices_shape n step_outputs self metrics self' :
  multilabel_outputs n step_outputs ->
  0 < total_samples step_outputs ->
  _generic_epoch_end step_outputs self = (inr metrics, self') ->
  length (conf_mats metrics) = n
  /\ (exists names, class_names self = Some names /\ length names = n)
  /\ Forall (fun cm =>
       exists tn fp fn tp,
         cm = [[tn; fp]; [fn; tp]]
         /\ 0 <= tn /\ 0 <= fp /\ 0 <= fn /\ 0 <= tp
         /\ tn + fp + fn + tp = total_samples step_outputs)
     (conf_mats metrics).
Proof.
  intros Hwf Hpos Hrun.
  apply _generic_epoch_end_inv in Hrun
    as (_ & _ & names & Hnames & Hlabels & ->).
  pose proof (all_targets_n_labels n step_outputs Hwf Hpos) as Hn.
  cbn [conf_mats bundle]. split; [|split].
  - rewrite multilabel_confusion_matrix_length. exact Hn.
  - exists names. split; [exact Hnames|]. congruence.
  - unfold sklearn.multilabel_confusion_matrix. apply Forall_map.
    apply Forall_forall. intros j _. cbn.
    rewrite <- all_targets_length.
    apply confusion_matrix_of_cells. eapply all_preds_length. exact Hwf.
Qed.

Lemma lookup_zip_with_seq {A B} (f : nat -> A -> B) n (l : list A) j x :
  (j < n)%nat -> l !! j = Some x ->
  zip_with f (seq 0 n) l !! j = Some (f j x).
Proof.
  intros Hj Hx. rewrite lookup_zip_with, lookup_seq_lt by exact Hj.
  cbn. rewrite Hx. reflexivity.
Qed.

(** C7.  A class with no positive target and no positive prediction among
    the aggregated samples does not make the aggregation fail: the bundle is
    produced, the class's line of the report has precision 0 and recall 0,
    and its confusion matrix is [[N, 0], [0, 0]] for the N samples. *)
Theorem C7_degenerate_class n step_outputs self names j :
  multilabel_outputs n step_outputs ->
  0 < total_samples step_outputs ->
  class_names self = Some names ->
  length names = n ->
  (j < n)%nat ->
  (forall row, In row (all_targets step_outputs) -> nth j row false = false) ->
  (forall row, In row (all_preds step_outputs) -> nth j row false = false) ->
  exists metrics,
    _generic_epoch_end step_outputs self = (inr metrics, self)
    /\ conf_mats metrics !! j
       = Some [[total_samples step_outputs; 0]; [0; 0]]
    /\ exists row,
         report metrics !! j = Some row
         /\ names !! j = Some (sklearn.row_name row)
         /\ sklearn.row_precision row = 0%Q
         /\ sklearn.row_recall row = 0%Q.
Proof.
  intros Hwf Hpos Hnames Hlen Hj Htrue Hpred.
  pose proof (all_targets_n_labels n step_outputs Hwf Hpos) as Hn.
  pose proof (count_nonzero_zero_column j _ Htrue) as Ht0.
  pose proof (count_nonzero_zero_column j _ Hpred) as Hp0.
  assert (Htp0 : sklearn.tp_sum (all_targets step_outputs)
                   (all_preds step_outputs) j = 0).
  { assert (Hcol : length (sklearn.column j (all_targets step_outputs))
                   = length (sklearn.column j (all_preds step_outputs))).
    { rewrite !column_length. symmetry. eapply all_preds_length. exact Hwf. }
    pose proof (count_nonzero_bounds _ _ Hcol) as (H0 & Hle & _).
    unfold sklearn.tp_sum. lia. }
  rewrite _generic_epoch_end_run, Hnames, Hn, Hlen, Nat.eqb_refl.
  destruct step_outputs as [|o outs].
  { exfalso. cbn in Hpos. lia. }
  eexists. split; [reflexivity|]. cbn [conf_mats report bundle]. split.
  - rewrite multilabel_confusion_matrix_lookup by (rewrite Hn; exact Hj).
    unfold sklearn.confusion_matrix_of, sklearn.pred_sum, sklearn.true_sum.
    rewrite Htp0, Ht0, Hp0, all_targets_length. repeat f_equal; lia.
  - destruct (lookup_lt_is_Some_2 names j) as [label Hlabel];
      [rewrite Hlen; exact Hj|].
    eexists. split.
    + rewrite Hn. apply lookup_zip_with_seq; [exact Hj|exact Hlabel].
    + unfold sklearn.report_row_of.
      cbn [sklearn.row_name sklearn.row_precision sklearn.row_recall].
      split; [exact Hlabel|].
      unfold sklearn.pred_sum, sklearn.true_sum.
      rewrite Htp0, Ht0, Hp0. split; reflexivity.
Qed.

(** ** Micro-averaged precision, recall and F1 *)

Lemma sumZ_map_add {A} (g h : A -> Z) (l : list A) :
  sklearn.sumZ (map (fun x => g x + h x) l)
  = sklearn.sumZ (map g l) + sklearn.sumZ (map h l).
Proof.
  unfold sklearn.sumZ. induction l as [|x l IH]; cbn; [reflexivity|].
  rewrite IH. lia.
Qed.

Lemma sumZ_map_zero {A} (l : list A) :
  sklearn.sumZ (map (fun _ => 0) l) = 0.
Proof. unfold sklearn.sumZ. induction l; cbn; [reflexivity|assumption]. Qed.

Lemma count_nonzero_app a b :
  sklearn.count_nonzero (a ++ b)
  = sklearn.count_nonzero a + sklearn.count_nonzero b.
Proof. induction a as [|x a IH]; cbn; [reflexivity|]. rewrite IH. lia. Qed.

(** Summing one row entry by entry counts the row. *)
Lemma row_sum (f : bool -> bool -> bool) (t : list bool) : forall p,
  length t = length p ->
  sklearn.sumZ
    (map (fun j => Z.b2z (f (nth j t false) (nth j p false)))
       (seq 0 (length t)))
  = sklearn.count_nonzero (zip_with f t p).
Proof.
  induction t as [|x t IH]; intros [|y p] Hlen; try discriminate Hlen;
    [reflexivity|].
  injection Hlen as Hlen.
  cbn [length seq map zip_with sklearn.count_nonzero].
  rewrite <- seq_shift, map_map. unfold sklearn.sumZ in *.
  cbn [fold_right nth]. rewrite (IH p Hlen). reflexivity.
Qed.

(** Summing the per-label counts over the labels counts the class-sample
    pairs: the exchange of the two sums behind micro-averaging. *)
Lemma sum_columns (f : bool -> bool -> bool) n (y_true : list (list bool)) :
  forall y_pred,
    length y_pred = length y_true ->
    Forall (fun row => length row = n) y_true ->
    Forall (fun row => length row = n) y_pred ->
    sklearn.sumZ
      (map (fun j => sklearn.count_nonzero
                       (zip_with f (sklearn.column j y_true)
                          (sklearn.column j y_pred)))
         (seq 0 n))
    = count_pairs f y_true y_pred.
Proof.
  induction y_true as [|t y_true IH]; intros [|p y_pred] Hlen Ht Hp;
    try discriminate Hlen.
  - cbn. apply sumZ_map_zero.
  - injection Hlen as Hlen.
    inversion Ht as [|? ? Hlt Ht']; inversion Hp as [|? ? Hlp Hp']; subst.
    unfold count_pairs, class_sample_pairs.
    cbn [zip_with concat sklearn.column map sklearn.count_nonzero].
    rewrite map_app, count_nonzero_app.
    rewrite (sumZ_map_add
               (fun j => Z.b2z (f (nth j t false) (nth j p false)))
               (fun j => sklearn.count_nonzero
                           (zip_with f (sklearn.column j y_true)
                              (sklearn.column j y_pred)))).
    rewrite (IH y_pred Hlen Ht' Hp'). f_equal.
    rewrite (row_sum f t p) by congruence.
    clear. revert p. induction t as [|x t IHt]; intros [|y p];
      try reflexivity.
    cbn. rewrite IHt. reflexivity.
Qed.

Lemma count_nonzero_snd (a b : list bool) :
  length a = length b ->
  sklearn.count_nonzero b
  = sklearn.count_nonzero (zip_with (fun _ p => p) a b).
Proof.
  revert b. induction a as [|x a IH]; intros [|y b] Hlen;
    try discriminate Hlen; [reflexivity|].
  injection Hlen as Hlen. cbn. rewrite <- (IH b Hlen). reflexivity.
Qed.

Lemma count_nonzero_fst (a b : list bool) :
  length a = length b ->
  sklearn.count_nonzero a
  = sklearn.count_nonzero (zip_with (fun t _ => t) a b).
Proof.
  revert b. induction a as [|x a IH]; intros [|y b] Hlen;
    try discriminate Hlen; [reflexivity|].
  injection Hlen as Hlen. cbn. rewrite <- (IH b Hlen). reflexivity.
Qed.

(** The predicted positives are the true and the false positives; the
    actual positives are the true positives and the false negatives. *)
Lemma count_pairs_pred y_true y_pred :
  count_pairs (fun _ p => p) y_true y_pred
  = TP y_true y_pred + FP y_true y_pred.
Proof.
  unfold TP, FP, count_pairs.
  induction (class_sample_pairs y_true y_pred) as [|[t p] l IH];
    [reflexivity|].
  cbn [map sklearn.count_nonzero fst snd]. rewrite IH.
  destruct t, p; cbn; lia.
Qed.

Lemma count_pairs_true y_true y_pred :
  count_pairs (fun t _ => t) y_true y_pred
  = TP y_true y_pred + FN y_true y_pred.
Proof.
  unfold TP, FN, count_pairs.
  induction (class_sample_pairs y_true y_pred) as [|[t p] l IH];
    [reflexivity|].
  cbn [map sklearn.count_nonzero fst snd]. rewrite IH.
  destruct t, p; cbn; lia.
Qed.

Lemma count_pairs_nonneg f y_true y_pred : 0 <= count_pairs f y_true y_pred.
Proof.
  unfold count_pairs.
  induction (map _ (class_sample_pairs y_true y_pred)) as [|b l IH];
    cbn; [lia|]. destruct b; cbn; lia.
Qed.

(** The library's micro average, through the per-label matrices, is the
    ratio of the counts over all class-sample pairs. *)
Lemma micro_counts n (y_true y_pred : list (list bool)) :
  length y_pred = length y_true ->
  Forall (fun row => length row = n) y_true ->
  Forall (fun row => length row = n) y_pred ->
  sklearn.precision_recall_fscore_support_micro y_true y_pred
  = let tp := TP y_true y_pred in
    let p := ratio tp (tp + FP y_true y_pred) in
    let r := ratio tp (tp + FN y_true y_pred) in
    (p, r, sklearn.f_score p r).
Proof.
  intros Hlen Ht Hp.
  assert (Hcols : forall j, length (sklearn.column j y_true)
                            = length (sklearn.column j y_pred))
    by (intros j; rewrite !column_length; symmetry; exact Hlen).
  assert (Hsum : forall f,
            sklearn.sumZ
              (map (fun j => sklearn.count_nonzero
                               (zip_with f (sklearn.column j y_true)
                                  (sklearn.column j y_pred)))
                 (seq 0 (sklearn.n_labels y_true)))
            = count_pairs f y_true y_pred).
  { intros f. destruct y_true as [|t y_true].
    - destruct y_pred; [reflexivity|discriminate Hlen].
    - replace (sklearn.n_labels (t :: y_true)) with n
        by (inversion Ht; subst; reflexivity).
      apply sum_columns; assumption. }
  unfold sklearn.precision_recall_fscore_support_micro,
    sklearn.multilabel_confusion_matrix.
  rewrite !map_map.
  assert (Htp : sklearn.sumZ
                  (map (fun j => sklearn.cell 1 1
                                   (sklearn.confusion_matrix_of y_true y_pred j))
                     (seq 0 (sklearn.n_labels y_true)))
                = TP y_true y_pred).
  { exact (Hsum andb). }
  assert (Hpred : sklearn.sumZ
                    (map (fun j =>
                            sklearn.cell 1 1
                              (sklearn.confusion_matrix_of y_true y_pred j)
                            + sklearn.cell 0 1
                                (sklearn.confusion_matrix_of y_true y_pred j))
                       (seq 0 (sklearn.n_labels y_true)))
                  = TP y_true y_pred + FP y_true y_pred).
  { rewrite <- count_pairs_pred, <- Hsum. f_equal. apply map_ext.
    intros j. cbn. unfold sklearn.pred_sum.
    rewrite <- (count_nonzero_snd _ _ (Hcols j)). lia. }
  assert (Htrue : sklearn.sumZ
                    (map (fun j =>
                            sklearn.cell 1 1
                              (sklearn.confusion_matrix_of y_true y_pred j)
                            + sklearn.cell 1 0
                                (sklearn.confusion_matrix_of y_true y_pred j))
                       (seq 0 (sklearn.n_labels y_true)))
                  = TP y_true y_pred + FN y_true y_pred).
  { rewrite <- count_pairs_true, <- Hsum. f_equal. apply map_ext.
    intros j. cbn. unfold sklearn.true_sum.
    rewrite <- (count_nonzero_fst _ _ (Hcols j)). lia. }
  rewrite Htp, Hpred, Htrue. reflexivity.
Qed.

Lemma ratio_nonneg num den : 0 <= num -> 0 <= den -> (0 <= ratio num den)%Q.
Proof.
  intros Hn Hd. unfold ratio. destruct (Z.eqb_spec den 0) as [|Hne].
  - apply Qle_refl.
  - apply Qle_shift_div_l.
    + change 0%Q with (inject_Z 0). rewrite <- Zlt_Qlt. lia.
    + rewrite Qmult_0_l. change 0%Q with (inject_Z 0).
      rewrite <- Zle_Qle. exact Hn.
Qed.

(** On non-negative precision and recall the library's F-score is their
    harmonic mean. *)
Lemma f_score_harmonic_mean p r :
  (0 <= p)%Q -> (0 <= r)%Q ->
  (sklearn.f_score p r == harmonic_mean p r)%Q.
Proof.
  intros Hp Hr. unfold sklearn.f_score, harmonic_mean.
  destruct (Qeq_bool (1 * p + r) 0) eqn:H1;
    destruct (Qeq_bool (p + r) 0) eqn:H2.
  - apply Qeq_bool_eq in H2.
    assert (Hp0 : (p == 0)%Q) by lra. rewrite Hp0. field.
  - apply Qeq_bool_eq in H1. apply Qeq_bool_neq in H2. exfalso. apply H2. lra.
  - apply Qeq_bool_neq in H1. apply Qeq_bool_eq in H2. exfalso. apply H1. lra.
  - apply Qeq_bool_neq in H2. field. exact H2.
Qed.


(** ** Diagnostic emission *)

Lemma emit_run e self : emit e self = (inr tt, emits [e] self).
Proof. reflexivity. Qed.

Lemma emits_emits es1 es2 self :
  emits es2 (emits es1 self) = emits (es1 ++ es2) self.
Proof. unfold emits. cbn. rewrite app_assoc. reflexivity. Qed.

Lemma emits_nil self : emits [] self = self.
Proof. destruct self. unfold emits. cbn. rewrite app_nil_r. reflexivity. Qed.

(** The loop over the zipped matrices, names and axes: it draws on the
    axes that have both a matrix and a name and leaves the others as they
    were. *)
Lemma plot_loop_spec conf_mats : forall labels axs,
  let fig := snd (plot_loop conf_mats labels axs) in
  length fig = length axs
  /\ (forall i cm label ax,
        conf_mats !! i = Some cm -> labels !! i = Some label ->
        axs !! i = Some ax ->
        fig !! i = Some (set_text (py_slice_to 20 label) (plot cm false ax)))
  /\ (forall i,
        conf_mats !! i = None \/ labels !! i = None ->
        fig !! i = axs !! i).
Proof.
  induction conf_mats as [|cm0 cms IH]; intros labels axs.
  - cbn. split; [reflexivity|]. split; [intros i ? ? ? H; destruct i; discriminate H|].
    reflexivity.
  - destruct labels as [|l0 labels].
    { cbn. split; [reflexivity|]. split.
      - intros i ? ? ? _ H. destruct i; discriminate H.
      - reflexivity. }
    destruct axs as [|a0 axs].
    { cbn. split; [reflexivity|]. split.
      - intros i ? ? ? _ _ H. destruct i; discriminate H.
      - reflexivity. }
    specialize (IH labels axs). cbn [plot_loop].
    destruct (plot_loop cms labels axs) as [entries fig'].
    cbn [snd] in *. destruct IH as (Hlen & Hdrawn & Hrest).
    split; [cbn; congruence|]. split.
    + intros [|i] cm label ax Hcm Hl Hax; cbn in *.
      * congruence.
      * eapply Hdrawn; eassumption.
    + intros [|i] H; cbn in *.
      * destruct H; discriminate.
      * apply Hrest. exact H.
Qed.

Lemma log_metrics_run trainer metrics split self names :
  class_names self = Some names ->
  log_metrics trainer metrics split self
  = (inr tt,
     emits (diagnostics trainer metrics split
              (snd (plot_loop (conf_mats metrics) names
                      (map set_axis_off (subplots 9 5))))
              (fst (plot_loop (conf_mats metrics) names
                      (map set_axis_off (subplots 9 5)))))
       self).
Proof.
  intros Hnames. unfold log_metrics, log_on_epoch, getattr.
  unfold bind, get. rewrite !emit_run. cbn [emits class_names].
  rewrite Hnames. unfold ret.
  destruct (plot_loop _ names _) as [entries fig].
  rewrite !emit_run. unfold emits, diagnostics. cbn.
  rewrite <- !app_assoc. reflexivity.
Qed.

Lemma py_slice_to_length n : forall s,
  String.length (py_slice_to n s) = Nat.min n (String.length s).
Proof.
  unfold py_slice_to. induction n as [|n IH]; intros [|c s]; cbn;
    try reflexivity.
  rewrite IH. reflexivity.
Qed.

Lemma py_slice_to_prefix n : forall s,
  String.prefix (py_slice_to n s) s = true.
Proof.
  unfold py_slice_to. induction n as [|n IH]; intros [|c s]; cbn;
    try reflexivity.
  destruct (Ascii.ascii_dec c c); [apply IH|contradiction].
Qed.

Lemma lookup_repeat {A} (x : A) n : forall i,
  (i < n)%nat -> repeat x n !! i = Some x.
Proof.
  induction n as [|n IH]; intros [|i] Hi; try lia; [reflexivity|].
  cbn. apply IH. lia.
Qed.

Lemma lookup_subplots_off i :
  (i < 45)%nat -> map set_axis_off (subplots 9 5) !! i = Some blank_axes.
Proof.
  intros Hi. rewrite lookup_map. unfold subplots.
  rewrite lookup_repeat by exact Hi. reflexivity.
Qed.

(** C9 (as amended).  [log_metrics] submits one composite image, tagged
    ["confusion matrix/<split>"] and stamped with the global step, on a
    fixed grid of 9 x 5 = 45 axes.  The first 45 classes that have both a
    matrix and a name get a subplot each, drawn without a colour bar and
    titled with the first 20 characters of the class name; every other axes
    of the grid stays blank.  A class beyond the 45th has no subplot. *)
Theorem C9_confusion_matrix_figure trainer metrics split self names :
  class_names self = Some names ->
  exists fig entries,
    log_metrics trainer metrics split self
    = (inr tt, emits (diagnostics trainer metrics split fig entries) self)
    /\ length fig = 45%nat
    /\ (forall i cm label,
          (i < 45)%nat ->
          conf_mats metrics !! i = Some cm -> names !! i = Some label ->
          fig !! i = Some (class_axes cm label))
    /\ (forall i,
          (i < 45)%nat ->
          conf_mats metrics !! i = None \/ names !! i = None ->
          fig !! i = Some blank_axes)
    /\ (forall label,
          String.length (py_slice_to 20 label)
          = Nat.min 20 (String.length label)
          /\ String.prefix (py_slice_to 20 label) label = true).
Proof.
  intros Hnames.
  pose proof (plot_loop_spec (conf_mats metrics) names
                (map set_axis_off (subplots 9 5)))
    as (Hlen & Hdrawn & Hrest).
  do 2 eexists. split; [apply log_metrics_run; exact Hnames|].
  split; [rewrite Hlen, length_map; reflexivity|]. split; [|split].
  - intros i cm label Hi Hcm Hlabel.
    apply (Hdrawn i cm label blank_axes Hcm Hlabel).
    apply lookup_subplots_off. exact Hi.
  - intros i Hi H. rewrite (Hrest i H). apply lookup_subplots_off. exact Hi.
  - intros label. split; [apply py_slice_to_length|apply py_slice_to_prefix].
Qed.

(** C9 as worded fails: with 46 classes the grid of 45 axes is full after
    the 45th, and the 46th class has no subplot. *)
Lemma C9_counterexample :
  ~ renders_every_class (a_trainer false (repeat "c" 46))
      (uniform_bundle 46) "val" (trained "max" "f1_score" (repeat "c" 46)).
Proof.
  intros (names & fig & entries & Hnames & Hrun & Hall).
  set (self := trained "max" "f1_score" (repeat "c" 46)) in *.
  assert (Hcn : class_names self = Some (repeat "c" 46)) by reflexivity.
  assert (names = repeat "c" 46) as -> by congruence.
  rewrite (log_metrics_run _ _ _ self (repeat "c" 46) Hcn) in Hrun.
  apply (f_equal (fun r => emitted (snd r))) in Hrun.
  cbn [snd emits emitted] in Hrun. apply app_inv_head in Hrun.
  apply (f_equal (fun es => match es !! 5%nat with
                            | Some (AddFigure _ f _) => f
                            | _ => []
                            end)) in Hrun.
  unfold diagnostics in Hrun. cbn [lookup list_lookup] in Hrun.
  rename Hrun into Hfig.
  destruct (Hall 45%nat "c" (lookup_repeat "c" 46 45 ltac:(lia)))
    as (cm & _ & Hax).
  pose proof (plot_loop_spec (conf_mats (uniform_bundle 46)) (repeat "c" 46)
                (map set_axis_off (subplots 9 5))) as (Hlen & _ & _).
  rewrite Hfig in Hlen. rewrite length_map in Hlen.
  assert (Hnone : fig !! 45%nat = None).
  { apply lookup_ge_None. rewrite Hlen. cbn. lia. }
  congruence.
Qed.

(** ** The hooks *)

Lemma validation_step_run {Input : Type} (model : Input -> list (list Q))
    (loss_fn : list (list Q) -> list (list bool) -> Q)
    (batch : @Batch Input) (batch_idx : nat) (self : LitModel) :
  validation_step model loss_fn batch batch_idx self
  = (inr {| Out.loss := loss_fn (model (data batch)) (labels batch);
            Out.targets := labels batch;
            Out.logits := model (data batch) |},
     emits [val_loss_record model loss_fn batch] self).
Proof. reflexivity. Qed.

Lemma run_steps_validation_step {Input : Type}
    (model : Input -> list (list Q))
    (loss_fn : list (list Q) -> list (list bool) -> Q)
    (batches : list (@Batch Input)) : forall batch_idx self,
  run_steps (validation_step model loss_fn) batches batch_idx self
  = (inr (map (fun batch =>
                 {| Out.loss := loss_fn (model (data batch)) (labels batch);
                    Out.targets := labels batch;
                    Out.logits := model (data batch) |}) batches),
     emits (map (val_loss_record model loss_fn) batches) self).
Proof.
  induction batches as [|batch batches IH]; intros idx self.
  - cbn. rewrite emits_nil. reflexivity.
  - cbn [run_steps map]. unfold bind at 1.
    rewrite validation_step_run. unfold bind at 1.
    rewrite IH, emits_emits. reflexivity.
Qed.

Lemma validation_phase_sanity {Input : Type}
    (model : Input -> list (list Q))
    (loss_fn : list (list Q) -> list (list bool) -> Q)
    (trainer : Trainer) (batches : list (@Batch Input)) (self : LitModel) :
  sanity_checking trainer = true ->
  validation_phase model loss_fn trainer batches self
  = (inr tt, emits (map (val_loss_record model loss_fn) batches) self).
Proof.
  intros Hsanity. unfold validation_phase, bind.
  rewrite run_steps_validation_step. unfold validation_epoch_end.
  rewrite Hsanity. reflexivity.
Qed.

(** Of the running-loss calls of a sanity phase nothing reaches the
    telemetry. *)
Lemma delivered_sanity {Input : Type} (model : Input -> list (list Q))
    (loss_fn : list (list Q) -> list (list bool) -> Q)
    (trainer : Trainer) (batches : list (@Batch Input)) :
  sanity_checking trainer = true ->
  delivered trainer (map (val_loss_record model loss_fn) batches) = [].
Proof.
  intros Hsanity. unfold delivered. rewrite Hsanity.
  induction batches as [|b batches IH]; [reflexivity|].
  cbn [map List.filter val_loss_record negb]. exact IH.
Qed.

(** C3.  A validation phase flagged as sanity check produces no telemetry
    record and never reaches the tracker.  The epoch-end hook does nothing
    at all, whatever the step outputs and the state: no aggregation, no
    diagnostics, no call of [update_best_metric].  The step hook still
    calls [self.log] with the running loss of each batch, and these are the
    only calls of the phase; the trainer passes none of them on during its
    sanity check, so no record, scalar or other, reaches the telemetry, and
    [best_metric] is as before. *)
Theorem C3_sanity_phase {Input : Type} (model : Input -> list (list Q))
    (loss_fn : list (list Q) -> list (list bool) -> Q)
    (trainer : Trainer) (batches : list (@Batch Input)) (self : LitModel) :
  sanity_checking trainer = true ->
  let calls := map (val_loss_record model loss_fn) batches in
  validation_phase model loss_fn trainer batches self
  = (inr tt, emits calls self)
  /\ delivered trainer calls = []
  /\ scalar_records (delivered trainer calls) = []
  /\ best_metric (emits calls self) = best_metric self
  /\ (forall outs s, validation_epoch_end trainer outs s = (inr tt, s)).
Proof.
  intros Hsanity calls.
  split; [apply validation_phase_sanity; exact Hsanity|].
  assert (Hnone : delivered trainer calls = [])
    by (apply delivered_sanity; exact Hsanity).
  split; [exact Hnone|]. split; [rewrite Hnone; reflexivity|].
  split; [reflexivity|].
  intros outs s. unfold validation_epoch_end. rewrite Hsanity. reflexivity.
Qed.

Lemma on_train_start_invalid trainer self :
  ~ valid_mode (mode (monitor (cfg self)))
  \/ ~ valid_name (name (monitor (cfg self))) ->
  on_train_start trainer self = (inl AssertionError, self).
Proof.
  intros Hbad. unfold on_train_start. unfold bind at 1. unfold get at 1.
  cbn iota. unfold bind at 1.
  destruct (bool_decide (mode (monitor (cfg self)) ∈ ["min"; "max"]))
    eqn:Hm; [|reflexivity].
  cbn [py_assert]. unfold ret at 1. cbn iota. unfold bind at 1.
  destruct (bool_decide (name (monitor (cfg self))
                         ∈ ["loss"; "precision"; "recall"; "f1_score"]))
    eqn:Hn; [|reflexivity].
  exfalso. apply bool_decide_eq_true_1 in Hm, Hn.
  destruct Hbad as [H | H]; apply H; assumption.
Qed.

(** C8 (as amended).  The monitor is checked when training starts, in
    [on_train_start], which the trainer calls after its sanity check: the
    batches of the sanity check have been through the step hook by then.
    With a mode outside [min], [max] or a name outside [loss], [precision],
    [recall], [f1_score] the hook raises (the [assert] of the source) before
    it emits or sets anything, so the run ends there: the only calls the
    module has made are the running-loss calls of the sanity batches, of
    which nothing reached the telemetry, and no epoch, hence no training
    batch, has run. *)
Theorem C8_invalid_monitor_fails_fast {Input : Type}
    (model : Input -> list (list Q))
    (loss_fn : list (list Q) -> list (list bool) -> Q)
    (trainer : Trainer) (sanity_batches : list (@Batch Input))
    (epochs : M LitModel unit) (self : LitModel) :
  ~ valid_mode (mode (monitor (cfg self)))
  \/ ~ valid_name (name (monitor (cfg self))) ->
  let calls := map (val_loss_record model loss_fn) sanity_batches in
  on_train_start trainer self = (inl AssertionError, self)
  /\ fit model loss_fn trainer sanity_batches epochs self
     = (inl AssertionError, emits calls self)
  /\ delivered (sanity_pass trainer) calls = []
  /\ (sanity_batches = [] ->
      fit model loss_fn trainer sanity_batches epochs self
      = (inl AssertionError, self)).
Proof.
  intros Hbad calls.
  assert (Hfit : fit model loss_fn trainer sanity_batches epochs self
                 = (inl AssertionError, emits calls self)).
  { unfold fit. unfold bind at 1.
    rewrite (validation_phase_sanity model loss_fn (sanity_pass trainer)
               sanity_batches self eq_refl).
    fold calls. unfold bind at 1.
    rewrite (on_train_start_invalid trainer (emits calls self) Hbad).
    reflexivity. }
  split; [apply on_train_start_invalid; exact Hbad|].
  split; [exact Hfit|].
  split; [apply delivered_sanity; reflexivity|].
  intros Hnil. rewrite Hfit. subst calls. rewrite Hnil. cbn [map].
  rewrite emits_nil. reflexivity.
Qed.

(** * Further properties of the module *)

(** ** The tracker *)

Lemma py_lt_irrefl v : py_lt v v = false.
Proof.
  unfold py_lt. rewrite (proj1 (Qeq_alt v v) (Qeq_refl v)). reflexivity.
Qed.

Lemma better_irrefl md v : better md v v = false.
Proof.
  unfold better, py_gt. rewrite py_lt_irrefl.
  destruct (decide (md = "min")); [reflexivity|].
  destruct (decide (md = "max")); reflexivity.
Qed.

Lemma with_best_best metrics self :
  best_metric (with_best metrics self)
  = Some (monitored (name (monitor (cfg self))) metrics).
Proof. reflexivity. Qed.

(** X1.  One call of the tracker never makes [best_metric] worse: in min
    mode the new value is below or equal to the old one, in max mode above
    or equal, and the configuration and the class names are not touched. *)
Theorem X1_update_is_monotone metrics self best :
  valid_name (name (monitor (cfg self))) ->
  best_metric self = Some best ->
  exists self' best',
    update_best_metric metrics self = (inr PyNone, self')
    /\ best_metric self' = Some best'
    /\ cfg self' = cfg self
    /\ class_names self' = class_names self
    /\ (mode (monitor (cfg self)) = "min" -> (best' <= best)%Q)
    /\ (mode (monitor (cfg self)) = "max" -> (best <= best')%Q).
Proof.
  intros Hn Hb. rewrite (update_best_metric_run metrics self best Hn Hb).
  destruct (better _ _ best) eqn:Hcmp.
  - do 2 eexists. split; [reflexivity|]. split; [reflexivity|].
    split; [reflexivity|]. split; [reflexivity|].
    unfold better in Hcmp. split; intros Hmode; rewrite Hmode in Hcmp.
    + cbn in Hcmp. apply py_lt_iff in Hcmp. apply Qlt_le_weak. exact Hcmp.
    + cbn in Hcmp. apply py_gt_iff in Hcmp. apply Qlt_le_weak. exact Hcmp.
  - exists self, best. split; [reflexivity|]. split; [exact Hb|].
    split; [reflexivity|]. split; [reflexivity|].
    split; intros _; apply Qle_refl.
Qed.

(** X2.  The comparison is strict, so the tracker is idempotent: a second
    call on the same bundle, right after the first, changes nothing and
    emits nothing. *)
Theorem X2_update_twice metrics self best :
  valid_name (name (monitor (cfg self))) ->
  best_metric self = Some best ->
  exists self',
    update_best_metric metrics self = (inr PyNone, self')
    /\ update_best_metric metrics self' = (inr PyNone, self').
Proof.
  intros Hn Hb. rewrite (update_best_metric_run metrics self best Hn Hb).
  destruct (better _ _ best) eqn:Hcmp.
  - eexists. split; [reflexivity|].
    rewrite (update_best_metric_run metrics (with_best metrics self) _
               Hn (with_best_best metrics self)).
    cbn [cfg with_best]. rewrite better_irrefl. reflexivity.
  - exists self. split; [reflexivity|].
    rewrite (update_best_metric_run metrics self best Hn Hb), Hcmp.
    reflexivity.
Qed.

Lemma mode_and_better_skip m cmp metrics self :
  mode (monitor (cfg self)) <> m ->
  mode_and_better m cmp metrics self = (inr false, self).
Proof.
  intros Hne. unfold mode_and_better, bind, get.
  destruct (decide (mode (monitor (cfg self)) = m)); [contradiction|].
  reflexivity.
Qed.

Lemma mode_and_better_unset m cmp metrics self :
  mode (monitor (cfg self)) = m ->
  valid_name (name (monitor (cfg self))) ->
  best_metric self = None ->
  mode_and_better m cmp metrics self = (inl AttributeError, self).
Proof.
  intros Hm Hn Hb. unfold mode_and_better, getattr, bind, get.
  destruct (decide (mode (monitor (cfg self)) = m)); [|contradiction].
  rewrite (metrics_getitem_scalar _ metrics Hn). cbn. rewrite Hb.
  reflexivity.
Qed.

Lemma mode_and_better_no_key m cmp metrics self :
  mode (monitor (cfg self)) = m ->
  metrics_getitem metrics (name (monitor (cfg self))) = inl KeyError ->
  mode_and_better m cmp metrics self = (inl KeyError, self).
Proof.
  intros Hm Hget. unfold mode_and_better, getattr, bind, get.
  destruct (decide (mode (monitor (cfg self)) = m)); [|contradiction].
  rewrite Hget. reflexivity.
Qed.

(** X3.  With a mode that is neither [min] nor [max] the tracker is inert:
    both comparisons are skipped before [metrics[name]] and [best_metric]
    are read, so the call returns [None] without raising and without any
    change, whatever the monitored name and whether or not [on_train_start]
    has run. *)
Theorem X3_update_unknown_mode metrics self :
  mode (monitor (cfg self)) <> "min" ->
  mode (monitor (cfg self)) <> "max" ->
  update_best_metric metrics self = (inr PyNone, self).
Proof.
  intros Hmin Hmax. unfold update_best_metric, bind at 1 2 3.
  unfold get at 1.
  rewrite (mode_and_better_skip "min" py_lt metrics self Hmin).
  rewrite (mode_and_better_skip "max" py_gt metrics self Hmax).
  reflexivity.
Qed.

(** X4.  Before [on_train_start] has run there is no [best_metric]: in a
    valid mode a call of the tracker on a monitored scalar raises
    [AttributeError], and a name that is no key of the bundle raises
    [KeyError] first; in both cases nothing is emitted or changed. *)
Theorem X4_update_before_start metrics self :
  valid_mode (mode (monitor (cfg self))) ->
  best_metric self = None ->
  (valid_name (name (monitor (cfg self))) ->
   update_best_metric metrics self = (inl AttributeError, self))
  /\ (metrics_getitem metrics (name (monitor (cfg self))) = inl KeyError ->
      update_best_metric metrics self = (inl KeyError, self)).
Proof.
  intros Hm Hb. split.
  - intros Hn. unfold update_best_metric, bind at 1 2 3. unfold get at 1.
    destruct (valid_mode_cases _ Hm) as [Hmode | Hmode].
    + rewrite (mode_and_better_unset "min" py_lt metrics self Hmode Hn Hb).
      reflexivity.
    + rewrite (mode_and_better_skip "min" py_lt metrics self)
        by (rewrite Hmode; discriminate).
      rewrite (mode_and_better_unset "max" py_gt metrics self Hmode Hn Hb).
      reflexivity.
  - intros Hget. unfold update_best_metric, bind at 1 2 3. unfold get at 1.
    destruct (valid_mode_cases _ Hm) as [Hmode | Hmode].
    + rewrite (mode_and_better_no_key "min" py_lt metrics self Hmode Hget).
      reflexivity.
    + rewrite (mode_and_better_skip "min" py_lt metrics self)
        by (rewrite Hmode; discriminate).
      rewrite (mode_and_better_no_key "max" py_gt metrics self Hmode Hget).
      reflexivity.
Qed.

Lemma last_hyperparams_app es1 es2 :
  last_hyperparams (es1 ++ es2)
  = match last_hyperparams es2 with
    | Some metrics => Some metrics
    | None => last_hyperparams es1
    end.
Proof.
  induction es1 as [|e es1 IH]; cbn.
  - destruct (last_hyperparams es2); reflexivity.
  - rewrite IH. destruct (last_hyperparams es2); reflexivity.
Qed.

Lemma last_hyperparams_none es :
  no_hyperparams es -> last_hyperparams es = None.
Proof.
  induction 1 as [|e es He _ IH]; [reflexivity|].
  cbn. rewrite IH. exact He.
Qed.

Lemma init_metrics_lookup nm :
  valid_name nm ->
  init_metrics !! ("best_metrics/" +:+ nm) = Some (init_value nm).
Proof.
  intros H. destruct (valid_name_cases nm H) as [-> | [-> | [-> | ->]]];
    reflexivity.
Qed.

Lemma best_metrics_of_lookup nm metrics :
  valid_name nm ->
  best_metrics_of metrics !! ("best_metrics/" +:+ nm)
  = Some (monitored nm metrics).
Proof.
  intros H. destruct (valid_name_cases nm H) as [-> | [-> | [-> | ->]]];
    reflexivity.
Qed.

Lemma in_sync_emits es self :
  no_hyperparams es -> in_sync self -> in_sync (emits es self).
Proof.
  intros Hes (metrics & best & Hlast & Hb & Hkey).
  exists metrics, best. cbn [emits emitted best_metric cfg].
  rewrite last_hyperparams_app, (last_hyperparams_none es Hes).
  repeat split; assumption.
Qed.

Lemma in_sync_update metrics self :
  valid_name (name (monitor (cfg self))) ->
  in_sync self ->
  exists self',
    update_best_metric metrics self = (inr PyNone, self') /\ in_sync self'.
Proof.
  intros Hn Hsync. pose proof Hsync as (m & best & Hlast & Hb & Hkey).
  rewrite (update_best_metric_run metrics self best Hn Hb).
  destruct (better _ _ best).
  - eexists. split; [reflexivity|].
    exists (best_metrics_of metrics),
      (monitored (name (monitor (cfg self))) metrics).
    cbn [with_best emitted best_metric cfg].
    rewrite last_hyperparams_app. cbn.
    split; [reflexivity|]. split; [reflexivity|].
    apply best_metrics_of_lookup. exact Hn.
  - exists self. split; [reflexivity|exact Hsync].
Qed.

(** X5.  The best record on the telemetry side never lags behind the
    tracker.  [on_train_start] leaves the module with a hyperparameter
    record whose entry for the monitored name is [best_metric]; every call
    of the tracker keeps it so, because the record is emitted whenever
    [best_metric] is replaced; and the other records of the module (scalars,
    log lines, figures) do not disturb it. *)
Theorem X5_best_record_in_sync :
  (forall trainer self,
     valid_mode (mode (monitor (cfg self))) ->
     valid_name (name (monitor (cfg self))) ->
     exists self',
       on_train_start trainer self = (inr tt, self') /\ in_sync self')
  /\ (forall metrics self,
        valid_name (name (monitor (cfg self))) ->
        in_sync self ->
        exists self',
          update_best_metric metrics self = (inr PyNone, self')
          /\ in_sync self')
  /\ (forall trainer bundles self,
        valid_mode (mode (monitor (cfg self))) ->
        valid_name (name (monitor (cfg self))) ->
        exists self',
          track trainer bundles self = (inr tt, self') /\ in_sync self')
  /\ (forall es self,
        no_hyperparams es -> in_sync self -> in_sync (emits es self)).
Proof.
  assert (Hstart : forall trainer self,
            valid_mode (mode (monitor (cfg self))) ->
            valid_name (name (monitor (cfg self))) ->
            in_sync (started trainer self)).
  { intros trainer self Hm Hn.
    exists init_metrics, (init_value (name (monitor (cfg self)))).
    cbn [started emitted best_metric cfg]. rewrite last_hyperparams_app.
    split; [reflexivity|]. split; [reflexivity|].
    apply init_metrics_lookup. exact Hn. }
  split; [|split; [|split]].
  - intros trainer self Hm Hn. exists (started trainer self).
    split; [apply on_train_start_ok; assumption|auto].
  - apply in_sync_update.
  - intros trainer bundles self Hm Hn. unfold track, bind.
    rewrite (on_train_start_ok trainer self Hm Hn).
    assert (Hn0 : valid_name (name (monitor (cfg (started trainer self)))))
      by exact Hn.
    generalize (Hstart trainer self Hm Hn) Hn0.
    generalize (started trainer self). clear.
    induction bundles as [|metrics bundles IH]; intros s Hsync Hn.
    + exists s. split; [reflexivity|exact Hsync].
    + destruct (in_sync_update metrics s Hn Hsync) as (s1 & Hrun & Hsync1).
      assert (Hcfg : cfg s1 = cfg s).
      { destruct Hsync as (m & best & _ & Hb & _).
        rewrite (update_best_metric_run metrics s best Hn Hb) in Hrun.
        injection Hrun as <-. destruct (better _ _ best); reflexivity. }
      cbn [run_updates]. unfold bind at 1. rewrite Hrun.
      apply IH; [exact Hsync1|]. rewrite Hcfg. exact Hn.
  - apply in_sync_emits.
Qed.

Lemma run_updates_noop bundles self best :
  valid_name (name (monitor (cfg self))) ->
  best_metric self = Some best ->
  Forall (fun metrics =>
            better (mode (monitor (cfg self)))
              (monitored (name (monitor (cfg self))) metrics) best = false)
    bundles ->
  run_updates bundles self = (inr tt, self).
Proof.
  intros Hn Hb Hall. induction Hall as [|metrics bundles Hcmp _ IH];
    [reflexivity|].
  cbn [run_updates]. unfold bind at 1.
  rewrite (update_best_metric_run metrics self best Hn Hb), Hcmp.
  exact IH.
Qed.

(** X6.  The starting value is chosen by the monitored name and not by the
    mode, so two configurations that [on_train_start] accepts track
    nothing.  In min mode on [precision], [recall] or [f1_score] the start
    is 0 and no non-negative value is below it; in max mode on [loss] the
    start is 99999 and no loss up to 99999 is above it.  In both cases the
    run over any such sequence of bundles ends exactly where
    [on_train_start] left the module: no update fires and no best record is
    emitted. *)
Theorem X6_tracker_never_fires trainer self bundles :
  valid_name (name (monitor (cfg self))) ->
  (mode (monitor (cfg self)) = "min"
   /\ name (monitor (cfg self)) <> "loss"
   /\ Forall (fun metrics =>
                (0 <= monitored (name (monitor (cfg self))) metrics)%Q)
        bundles)
  \/ (mode (monitor (cfg self)) = "max"
      /\ name (monitor (cfg self)) = "loss"
      /\ Forall (fun metrics => (loss metrics <= 99999)%Q) bundles) ->
  track trainer bundles self = (inr tt, started trainer self).
Proof.
  intros Hn Hcase.
  assert (Hm : valid_mode (mode (monitor (cfg self)))).
  { unfold valid_mode. rewrite !elem_of_cons.
    destruct Hcase as [(-> & _) | (-> & _)]; auto. }
  unfold track, bind. rewrite (on_train_start_ok trainer self Hm Hn).
  apply (run_updates_noop bundles (started trainer self)
           (init_value (name (monitor (cfg self)))));
    [exact Hn|reflexivity|].
  cbn [started cfg].
  destruct Hcase as [(Hmode & Hne & Hall) | (Hmode & Hloss & Hall)].
  - eapply Forall_impl; [exact Hall|]. intros metrics Hpos. cbn beta in *.
    rewrite Hmode. unfold init_value.
    destruct (decide (name (monitor (cfg self)) = "loss")); [contradiction|].
    unfold better. cbn [decide].
    destruct (decide ("min" = "min")); [|contradiction].
    destruct (py_lt _ 0) eqn:Hlt; [|reflexivity].
    apply py_lt_iff in Hlt. exfalso. apply (Qlt_not_le _ _ Hlt). exact Hpos.
  - eapply Forall_impl; [exact Hall|]. intros metrics Hle. cbn beta in *.
    rewrite Hmode, Hloss. unfold better.
    destruct (decide ("max" = "min")); [discriminate|].
    destruct (decide ("max" = "max")); [|contradiction].
    change (monitored "loss" metrics) with (loss metrics).
    change (init_value "loss") with 99999%Q.
    destruct (py_gt _ _) eqn:Hgt; [|reflexivity].
    apply py_gt_iff in Hgt. exfalso. apply (Qlt_not_le _ _ Hgt). exact Hle.
Qed.

(** ** The aggregation *)

Lemma ratio_bounds num den :
  0 <= num -> num <= den -> (0 <= ratio num den <= 1)%Q.
Proof.
  intros Hn Hd. split; [apply ratio_nonneg; lia|].
  unfold ratio. destruct (Z.eqb_spec den 0) as [|Hne]; [discriminate|].
  apply Qle_shift_div_r.
  - change 0%Q with (inject_Z 0). rewrite <- Zlt_Qlt. lia.
  - rewrite Qmult_1_l. rewrite <- Zle_Qle. exact Hd.
Qed.

Lemma harmonic_mean_bounds p r :
  (0 <= p <= 1)%Q -> (0 <= r <= 1)%Q -> (0 <= harmonic_mean p r <= 1)%Q.
Proof.
  intros [Hp0 Hp1] [Hr0 Hr1]. unfold harmonic_mean.
  destruct (Qeq_bool (p + r) 0) eqn:H0; [split; discriminate|].
  apply Qeq_bool_neq in H0.
  assert (Hpos : (0 < p + r)%Q).
  { apply Qnot_le_lt. intros Hle. apply H0. lra. }
  assert (Hpr : (0 <= p * r)%Q) by (apply Qmult_le_0_compat; assumption).
  assert (Hp : (r * p <= 1 * p)%Q)
    by (apply Qmult_le_compat_r; assumption).
  assert (Hr : (p * r <= 1 * r)%Q)
    by (apply Qmult_le_compat_r; assumption).
  split.
  - apply Qle_shift_div_l; [exact Hpos|]. lra.
  - apply Qle_shift_div_r; [exact Hpos|]. lra.
Qed.

(** The scores of a returned bundle in terms of the counts over all
    class-sample pairs. *)
Lemma bundle_scores n step_outputs self metrics self' :
  multilabel_outputs n step_outputs ->
  _generic_epoch_end step_outputs self = (inr metrics, self') ->
  let y_true := all_targets step_outputs in
  let y_pred := all_preds step_outputs in
  precision metrics
  = ratio (TP y_true y_pred) (TP y_true y_pred + FP y_true y_pred)
  /\ recall metrics
     = ratio (TP y_true y_pred) (TP y_true y_pred + FN y_true y_pred)
  /\ (f1_score metrics
      == harmonic_mean (precision metrics) (recall metrics))%Q.
Proof.
  intros Hwf Hrun y_true y_pred.
  apply _generic_epoch_end_inv in Hrun as (_ & _ & names & _ & _ & ->).
  cbn [precision recall f1_score bundle].
  rewrite (micro_counts n (all_targets step_outputs)
             (all_preds step_outputs)
             (all_preds_length n step_outputs Hwf)
             (all_targets_rows n step_outputs Hwf)
             (all_preds_rows n step_outputs Hwf)).
  cbn [fst snd]. split; [reflexivity|]. split; [reflexivity|].
  pose proof (count_pairs_nonneg (fun t p => t && p) y_true y_pred).
  pose proof (count_pairs_nonneg (fun t p => negb t && p) y_true y_pred).
  pose proof (count_pairs_nonneg (fun t p => t && negb p) y_true y_pred).
  apply f_score_harmonic_mean; apply ratio_nonneg; unfold TP, FP, FN;
    fold y_true y_pred; lia.
Qed.

(** X7.  The three scores of a returned bundle are proportions: precision,
    recall and F1 all lie between 0 and 1. *)
Theorem X7_scores_are_proportions n step_outputs self metrics self' :
  multilabel_outputs n step_outputs ->
  _generic_epoch_end step_outputs self = (inr metrics, self') ->
  (0 <= precision metrics <= 1)%Q
  /\ (0 <= recall metrics <= 1)%Q
  /\ (0 <= f1_score metrics <= 1)%Q.
Proof.
  intros Hwf Hrun.
  destruct (bundle_scores n step_outputs self metrics self' Hwf Hrun)
    as (Hp & Hr & Hf).
  set (y_true := all_targets step_outputs) in *.
  set (y_pred := all_preds step_outputs) in *.
  pose proof (count_pairs_nonneg (fun t p => t && p) y_true y_pred) as Htp.
  pose proof (count_pairs_nonneg (fun t p => negb t && p) y_true y_pred)
    as Hfp.
  pose proof (count_pairs_nonneg (fun t p => t && negb p) y_true y_pred)
    as Hfn.
  fold (TP y_true y_pred) in Htp. fold (FP y_true y_pred) in Hfp.
  fold (FN y_true y_pred) in Hfn.
  assert (HP : (0 <= precision metrics <= 1)%Q)
    by (rewrite Hp; apply ratio_bounds; lia).
  assert (HR : (0 <= recall metrics <= 1)%Q)
    by (rewrite Hr; apply ratio_bounds; lia).
  split; [exact HP|]. split; [exact HR|].
  rewrite Hf. apply harmonic_mean_bounds; assumption.
Qed.

Lemma zip_with_andb_diag (c : list bool) : zip_with andb c c = c.
Proof.
  induction c as [|b c IH]; [reflexivity|]. cbn. rewrite IH.
  destruct b; reflexivity.
Qed.

Lemma count_pairs_diag (f : bool -> bool -> bool) (y : list (list bool)) :
  (forall b, f b b = false) -> count_pairs f y y = 0.
Proof.
  intros Hf. unfold count_pairs, class_sample_pairs.
  induction y as [|row y IH]; [reflexivity|].
  cbn [zip_with concat]. rewrite map_app, count_nonzero_app, IH.
  clear IH. induction row as [|b row IHr]; [reflexivity|].
  cbn. rewrite Hf. cbn. cbn in IHr. lia.
Qed.

Lemma ratio_self a : 0 < a -> (ratio a a == 1)%Q.
Proof.
  intros Ha. unfold ratio. destruct (Z.eqb_spec a 0); [lia|].
  field. intros H. change 0%Q with (inject_Z 0) in H.
  apply (proj1 (inject_Z_injective a 0)) in H. lia.
Qed.

Lemma harmonic_mean_one p r :
  (p == 1)%Q -> (r == 1)%Q -> (harmonic_mean p r == 1)%Q.
Proof.
  intros Hp Hr. unfold harmonic_mean.
  destruct (Qeq_bool (p + r) 0) eqn:H0.
  - apply Qeq_bool_eq in H0. lra.
  - rewrite Hp, Hr. reflexivity.
Qed.

(** X8.  When every prediction agrees with its target, no confusion matrix
    has a false positive or a false negative, and as soon as one label is
    positive the precision, the recall and the F1 of the bundle are all
    1. *)
Theorem X8_perfect_predictions n step_outputs self metrics self' :
  multilabel_outputs n step_outputs ->
  all_preds step_outputs = all_targets step_outputs ->
  _generic_epoch_end step_outputs self = (inr metrics, self') ->
  Forall (fun cm => sklearn.cell 0 1 cm = 0 /\ sklearn.cell 1 0 cm = 0)
    (conf_mats metrics)
  /\ (0 < TP (all_targets step_outputs) (all_preds step_outputs) ->
      (precision metrics == 1)%Q
      /\ (recall metrics == 1)%Q
      /\ (f1_score metrics == 1)%Q).
Proof.
  intros Hwf Heq Hrun.
  pose proof (bundle_scores n step_outputs self metrics self' Hwf Hrun)
    as (Hp & Hr & Hf).
  apply _generic_epoch_end_inv in Hrun as (_ & _ & names & _ & _ & Hm).
  split.
  - rewrite Hm. cbn [conf_mats bundle]. rewrite Heq.
    unfold sklearn.multilabel_confusion_matrix. apply Forall_map.
    apply Forall_forall. intros j _. cbn.
    unfold sklearn.tp_sum, sklearn.pred_sum, sklearn.true_sum.
    rewrite zip_with_andb_diag. lia.
  - intros Hpos. rewrite Heq in Hp, Hr, Hpos.
    unfold FP in Hp. unfold FN in Hr.
    rewrite count_pairs_diag in Hp by (intros []; reflexivity).
    rewrite count_pairs_diag in Hr by (intros []; reflexivity).
    rewrite Z.add_0_r in Hp, Hr.
    assert (HP : (precision metrics == 1)%Q)
      by (rewrite Hp; apply ratio_self; exact Hpos).
    assert (HR : (recall metrics == 1)%Q)
      by (rewrite Hr; apply ratio_self; exact Hpos).
    split; [exact HP|]. split; [exact HR|].
    rewrite Hf. apply harmonic_mean_one; assumption.
Qed.

(** *** The order of the batches *)

Lemma count_nonzero_Permutation (l l' : list bool) :
  Permutation l l' -> sklearn.count_nonzero l = sklearn.count_nonzero l'.
Proof.
  induction 1 as [|x l l' _ IH|x y l|l l' l'' _ IH1 _ IH2]; cbn;
    [reflexivity|rewrite IH; reflexivity|lia|congruence].
Qed.

Lemma samples_zip n step_outputs :
  multilabel_outputs n step_outputs ->
  zip (all_targets step_outputs) (all_preds step_outputs)
  = samples step_outputs.
Proof.
  intros [_ Hwf]. unfold all_targets, all_preds, samples.
  induction Hwf as [|o outs (Hlen & _ & _) _ IH]; [reflexivity|].
  cbn [flat_map]. rewrite zip_with_app by (rewrite length_map; exact Hlen).
  rewrite IH. reflexivity.
Qed.

(** The three counts of a label, read off the paired samples. *)
Lemma tp_sum_samples (y_true y_pred : list (list bool)) j :
  sklearn.tp_sum y_true y_pred j
  = sklearn.count_nonzero
      (map (fun s => nth j (fst s) false && nth j (snd s) false)
         (zip y_true y_pred)).
Proof.
  unfold sklearn.tp_sum, sklearn.column. revert y_pred.
  induction y_true as [|t y_true IH]; intros [|p y_pred]; try reflexivity.
  cbn. rewrite <- IH. reflexivity.
Qed.

Lemma true_sum_samples (y_true y_pred : list (list bool)) j :
  length y_pred = length y_true ->
  sklearn.true_sum y_true j
  = sklearn.count_nonzero
      (map (fun s => nth j (fst s) false) (zip y_true y_pred)).
Proof.
  unfold sklearn.true_sum, sklearn.column. revert y_pred.
  induction y_true as [|t y_true IH]; intros [|p y_pred] Hlen;
    try discriminate Hlen; [reflexivity|].
  injection Hlen as Hlen. cbn. rewrite <- (IH y_pred Hlen). reflexivity.
Qed.

Lemma pred_sum_samples (y_true y_pred : list (list bool)) j :
  length y_pred = length y_true ->
  sklearn.pred_sum y_pred j
  = sklearn.count_nonzero
      (map (fun s => nth j (snd s) false) (zip y_true y_pred)).
Proof.
  unfold sklearn.pred_sum, sklearn.column. revert y_pred.
  induction y_true as [|t y_true IH]; intros [|p y_pred] Hlen;
    try discriminate Hlen; [reflexivity|].
  injection Hlen as Hlen. cbn. rewrite <- (IH y_pred Hlen). reflexivity.
Qed.

Lemma multilabel_outputs_Permutation n outs outs' :
  Permutation outs outs' ->
  multilabel_outputs n outs -> multilabel_outputs n outs'.
Proof.
  intros Hperm [Hn Hwf]. split; [exact Hn|].
  eapply Permutation_Forall; eassumption.
Qed.

Lemma n_labels_rows n (y : list (list bool)) :
  Forall (fun row => length row = n) y ->
  sklearn.n_labels y = match y with [] => 0%nat | _ :: _ => n end.
Proof. destruct 1; [reflexivity|assumption]. Qed.

(** Everything the aggregation counts is the same for two orders of the
    batches. *)
Lemma counts_Permutation n outs outs' :
  multilabel_outputs n outs ->
  Permutation outs outs' ->
  sklearn.n_labels (all_targets outs') = sklearn.n_labels (all_targets outs)
  /\ length (all_targets outs') = length (all_targets outs)
  /\ forall j,
       sklearn.tp_sum (all_targets outs') (all_preds outs') j
       = sklearn.tp_sum (all_targets outs) (all_preds outs) j
       /\ sklearn.pred_sum (all_preds outs') j
          = sklearn.pred_sum (all_preds outs) j
       /\ sklearn.true_sum (all_targets outs') j
          = sklearn.true_sum (all_targets outs) j.
Proof.
  intros Hwf Hperm.
  pose proof (multilabel_outputs_Permutation n outs outs' Hperm Hwf) as Hwf'.
  assert (Hlen : length (all_targets outs') = length (all_targets outs)).
  { unfold all_targets. symmetry. apply Permutation_length.
    apply Permutation_flat_map. exact Hperm. }
  assert (Hs : Permutation (samples outs) (samples outs'))
    by (apply Permutation_flat_map; exact Hperm).
  split; [|split; [exact Hlen|]].
  - rewrite (n_labels_rows n _ (all_targets_rows n outs Hwf)).
    rewrite (n_labels_rows n _ (all_targets_rows n outs' Hwf')).
    destruct (all_targets outs), (all_targets outs'); try reflexivity;
      discriminate Hlen.
  - intros j.
    rewrite !tp_sum_samples.
    rewrite (pred_sum_samples (all_targets outs) (all_preds outs) j
               (all_preds_length n outs Hwf)).
    rewrite (pred_sum_samples (all_targets outs') (all_preds outs') j
               (all_preds_length n outs' Hwf')).
    rewrite (true_sum_samples (all_targets outs) (all_preds outs) j
               (all_preds_length n outs Hwf)).
    rewrite (true_sum_samples (all_targets outs') (all_preds outs') j
               (all_preds_length n outs' Hwf')).
    rewrite (samples_zip n outs Hwf), (samples_zip n outs' Hwf').
    repeat split; apply count_nonzero_Permutation, Permutation_map;
      symmetry; exact Hs.
Qed.

(** X9.  The order in which the batches of a phase arrive does not matter
    for what the aggregation counts: on any reordering of the step outputs
    it succeeds as well and returns the same confusion matrices and the same
    precision, recall and F1, which are ratios of the same integer counts.
    (The average loss is a floating-point sum in batch order and is left
    out.) *)
Theorem X9_batch_order_is_irrelevant n outs outs' self metrics self1 :
  multilabel_outputs n outs ->
  Permutation outs outs' ->
  _generic_epoch_end outs self = (inr metrics, self1) ->
  exists metrics',
    _generic_epoch_end outs' self = (inr metrics', self)
    /\ precision metrics' = precision metrics
    /\ recall metrics' = recall metrics
    /\ f1_score metrics' = f1_score metrics
    /\ conf_mats metrics' = conf_mats metrics.
Proof.
  intros Hwf Hperm Hrun.
  pose proof (counts_Permutation n outs outs' Hwf Hperm)
    as (Hlab & Hlen & Hcounts).
  apply _generic_epoch_end_inv in Hrun as (_ & Hne & names & Hn & Hnl & ->).
  assert (Hmcm : sklearn.multilabel_confusion_matrix
                   (all_targets outs') (all_preds outs')
                 = sklearn.multilabel_confusion_matrix
                     (all_targets outs) (all_preds outs)).
  { unfold sklearn.multilabel_confusion_matrix. rewrite Hlab.
    apply map_ext. intros j. unfold sklearn.confusion_matrix_of.
    destruct (Hcounts j) as (-> & -> & ->). rewrite Hlen. reflexivity. }
  rewrite _generic_epoch_end_run.
  destruct outs' as [|o' outs''].
  { apply Permutation_sym, Permutation_nil in Hperm. contradiction. }
  rewrite Hn, Hlab, Hnl, Nat.eqb_refl.
  eexists. split; [reflexivity|]. cbn [precision recall f1_score conf_mats
                                         report loss bundle].
  unfold sklearn.precision_recall_fscore_support_micro.
  rewrite Hmcm. repeat split.
Qed.

(** ** The epoch-end hooks *)

Lemma no_hyperparams_diagnostics trainer metrics split fig entries :
  no_hyperparams (diagnostics trainer metrics split fig entries).
Proof. repeat constructor. Qed.

(** Aggregation followed by the diagnostics, as the three epoch-end hooks
    run them: a failed aggregation is passed on with [self] untouched, a
    bundle is reported in full. *)
Lemma report_epoch_run trainer split step_outputs self :
  (metrics <- _generic_epoch_end step_outputs ;;
   log_metrics trainer metrics split) self
  = match _generic_epoch_end step_outputs self with
    | (inl e, _) => (inl e, self)
    | (inr metrics, _) =>
        (inr tt,
         emits (diagnostics trainer metrics split
                  (figure_of metrics (default [] (class_names self)))
                  (dump_of metrics (default [] (class_names self))))
           self)
    end.
Proof.
  unfold bind.
  destruct (_generic_epoch_end step_outputs self) as [[e | metrics] self1]
    eqn:Hrun.
  - rewrite _generic_epoch_end_run in Hrun. injection Hrun as _ <-.
    reflexivity.
  - apply _generic_epoch_end_inv in Hrun as (-> & _ & names & Hn & _ & _).
    rewrite (log_metrics_run trainer metrics split self names Hn), Hn.
    reflexivity.
Qed.

(** X12.  Training and test epochs never touch the tracker.  Whatever the
    step outputs and the state, and whether the hook returns or raises,
    [training_epoch_end] and [test_epoch_end] leave [best_metric], the
    configuration and the class names as they were and emit no
    hyperparameter record; when the hook raises, nothing at all was
    emitted. *)
Theorem X12_only_validation_tracks trainer step_outputs self :
  forall hook,
    hook = training_epoch_end \/ hook = test_epoch_end ->
    forall r self',
      hook trainer step_outputs self = (r, self') ->
      best_metric self' = best_metric self
      /\ cfg self' = cfg self
      /\ class_names self' = class_names self
      /\ last_hyperparams (emitted self') = last_hyperparams (emitted self)
      /\ (forall e, r = inl e -> self' = self).
Proof.
  intros hook Hhook r self' Hrun.
  assert (Hshape : exists split,
            hook trainer step_outputs self
            = (metrics <- _generic_epoch_end step_outputs ;;
               log_metrics trainer metrics split) self).
  { destruct Hhook as [-> | ->]; eexists; reflexivity. }
  destruct Hshape as (split & Hshape).
  rewrite Hshape, report_epoch_run in Hrun.
  destruct (_generic_epoch_end step_outputs self) as [[e | metrics] self1].
  - injection Hrun as <- <-. repeat split.
  - injection Hrun as <- <-. cbn [emits best_metric cfg class_names emitted].
    rewrite last_hyperparams_app.
    rewrite (last_hyperparams_none _
               (no_hyperparams_diagnostics trainer metrics split _ _)).
    repeat split. intros e He. discriminate He.
Qed.

(** X13.  A validation epoch outside the sanity check is the aggregation,
    then the diagnostics under the split ["val"], then one call of the
    tracker on the same bundle: the seven diagnostic records are emitted
    first, and the best record follows, with [best_metric] replaced, exactly
    when the monitored value of the bundle beats the current best.  A failed
    aggregation is passed on and leaves [self] untouched. *)
Theorem X13_validation_epoch trainer step_outputs self best :
  sanity_checking trainer = false ->
  valid_name (name (monitor (cfg self))) ->
  best_metric self = Some best ->
  match _generic_epoch_end step_outputs self with
  | (inl e, _) =>
      validation_epoch_end trainer step_outputs self = (inl e, self)
  | (inr metrics, _) =>
      exists names,
        class_names self = Some names
        /\ let reported :=
             emits (diagnostics trainer metrics "val"
                      (figure_of metrics names) (dump_of metrics names))
               self in
           validation_epoch_end trainer step_outputs self
           = (inr tt,
              if better (mode (monitor (cfg self)))
                   (monitored (name (monitor (cfg self))) metrics) best
              then with_best metrics reported else reported)
  end.
Proof.
  intros Hsanity Hn Hb.
  assert (Hhook : validation_epoch_end trainer step_outputs self
                  = (metrics <- _generic_epoch_end step_outputs ;;
                     log_metrics trainer metrics "val" ;;
                     _ <- update_best_metric metrics ;;
                     ret tt) self).
  { unfold validation_epoch_end. rewrite Hsanity. reflexivity. }
  rewrite Hhook. clear Hhook.
  destruct (_generic_epoch_end step_outputs self) as [[e | metrics] self1]
    eqn:Hrun; cbv beta iota zeta; unfold bind at 1; rewrite Hrun.
  - rewrite _generic_epoch_end_run in Hrun. injection Hrun as _ <-.
    reflexivity.
  - apply _generic_epoch_end_inv in Hrun as (-> & _ & names & Hnames & _ & _).
    exists names. split; [exact Hnames|].
    unfold bind at 1.
    rewrite (log_metrics_run trainer metrics "val" self names Hnames).
    fold (figure_of metrics names). fold (dump_of metrics names).
    set (reported := emits _ self). unfold bind at 1.
    rewrite (update_best_metric_run metrics reported best Hn Hb).
    reflexivity.
Qed.

(** X14.  A validation epoch keeps the best record in step with the
    tracker in every outcome: from a state where the latest hyperparameter
    record agrees with [best_metric], the state after
    [validation_epoch_end], sanity check or not, returned or raised, agrees
    again. *)
Theorem X14_validation_epoch_keeps_sync trainer step_outputs self :
  valid_name (name (monitor (cfg self))) ->
  in_sync self ->
  in_sync (snd (validation_epoch_end trainer step_outputs self)).
Proof.
  intros Hn Hsync. unfold validation_epoch_end.
  destruct (sanity_checking trainer); [exact Hsync|].
  cbn [negb]. unfold bind at 1.
  destruct (_generic_epoch_end step_outputs self) as [[e | metrics] self1]
    eqn:Hrun.
  - rewrite _generic_epoch_end_run in Hrun. injection Hrun as _ <-.
    exact Hsync.
  - apply _generic_epoch_end_inv in Hrun as (-> & _ & names & Hnames & _ & _).
    unfold bind at 1.
    rewrite (log_metrics_run trainer metrics "val" self names Hnames).
    set (reported := emits _ self).
    assert (Hrep : in_sync reported).
    { apply in_sync_emits; [apply no_hyperparams_diagnostics|exact Hsync]. }
    destruct (in_sync_update metrics reported Hn Hrep) as (s' & Hupd & Hs').
    unfold bind at 1. rewrite Hupd. exact Hs'.
Qed.

(** ** The step hooks and the phases *)

Lemma run_steps_training_step {Input : Type}
    (model : Input -> list (list Q))
    (loss_fn : list (list Q) -> list (list bool) -> Q)
    (batches : list (@Batch Input)) : forall batch_idx self,
  run_steps (training_step model loss_fn) batches batch_idx self
  = (inr (map (step_output model loss_fn) batches),
     emits (map (train_loss_record model loss_fn) batches) self).
Proof.
  induction batches as [|batch batches IH]; intros idx self.
  - cbn. rewrite emits_nil. reflexivity.
  - cbn [run_steps map]. unfold bind at 1.
    change (training_step model loss_fn batch idx self)
      with (@inr exception _ (step_output model loss_fn batch),
            emits [train_loss_record model loss_fn batch] self).
    cbv beta iota. unfold bind at 1. rewrite IH, emits_emits. reflexivity.
Qed.

Lemma run_steps_test_step {Input : Type}
    (model : Input -> list (list Q))
    (loss_fn : list (list Q) -> list (list bool) -> Q)
    (batches : list (@Batch Input)) : forall batch_idx self,
  run_steps (test_step model loss_fn) batches batch_idx self
  = (inr (map (step_output model loss_fn) batches), self).
Proof.
  induction batches as [|batch batches IH]; intros idx self;
    [reflexivity|].
  cbn [run_steps map]. unfold bind at 1.
  change (test_step model loss_fn batch idx self)
    with (@inr exception _ (step_output model loss_fn batch), self).
  cbv beta iota. unfold bind at 1. rewrite IH. reflexivity.
Qed.

(** X16.  A module whose [on_train_start] never ran cannot be tested: its
    class names are only set by that hook, so a test phase raises
    [AttributeError] at the end of the epoch (or [ZeroDivisionError] when
    there is no batch at all), after the forward passes, and nothing has
    been sent out. *)
Theorem X16_test_before_training {Input : Type}
    (model : Input -> list (list Q))
    (loss_fn : list (list Q) -> list (list bool) -> Q)
    (trainer : Trainer) (batches : list (@Batch Input)) (self : LitModel) :
  class_names self = None ->
  test_phase model loss_fn trainer batches self
  = (inl match batches with
         | [] => ZeroDivisionError
         | _ :: _ => AttributeError
         end, self).
Proof.
  intros Hnames. unfold test_phase, bind at 1.
  rewrite run_steps_test_step. unfold test_epoch_end.
  rewrite report_epoch_run, _generic_epoch_end_run, Hnames.
  destruct batches; reflexivity.
Qed.

(** ** The diagnostics *)

Lemma plot_loop_fst conf_mats : forall labels axs,
  fst (plot_loop conf_mats labels axs)
  = take (length axs) (zip labels conf_mats).
Proof.
  induction conf_mats as [|cm cms IH]; intros [|label labels] [|ax axs];
    try reflexivity.
  cbn [plot_loop]. specialize (IH labels axs).
  destruct (plot_loop cms labels axs) as [entries fig].
  cbn in *. rewrite IH. reflexivity.
Qed.

Lemma drawn_blank (axs : list Axes) :
  Forall (fun ax => image ax = None) axs -> drawn axs = [].
Proof.
  induction 1 as [|ax axs Hax _ IH]; [reflexivity|].
  unfold drawn in *. cbn. rewrite Hax. exact IH.
Qed.

Lemma plot_loop_drawn conf_mats : forall labels axs,
  Forall (fun ax => image ax = None) axs ->
  length (drawn (snd (plot_loop conf_mats labels axs)))
  = length (fst (plot_loop conf_mats labels axs)).
Proof.
  induction conf_mats as [|cm cms IH]; intros labels axs Hblank.
  - cbn [plot_loop snd fst]. rewrite (drawn_blank axs Hblank). reflexivity.
  - destruct labels as [|label labels];
      [cbn [plot_loop snd fst]; rewrite (drawn_blank axs Hblank);
       reflexivity|].
    destruct axs as [|ax axs]; [reflexivity|].
    inversion Hblank as [|? ? _ Hblank']; subst.
    specialize (IH labels axs Hblank'). cbn [plot_loop].
    destruct (plot_loop cms labels axs) as [entries fig].
    cbn [snd fst] in *. unfold drawn in *. cbn. rewrite IH. reflexivity.
Qed.

(** X17.  The textual dump of the confusion matrices goes through the same
    loop as the figure, so it lists exactly the classes that were drawn:
    the pairs (name, matrix) of the first 45 classes, in class order.  With
    as many matrices as names and at most 45 of them, that is every class,
    each with its full name. *)
Theorem X17_dump_follows_figure trainer metrics split self names :
  class_names self = Some names ->
  let dump := take 45 (zip names (conf_mats metrics)) in
  log_metrics trainer metrics split self
  = (inr tt,
     emits (diagnostics trainer metrics split (figure_of metrics names) dump)
       self)
  /\ length (drawn (figure_of metrics names)) = length dump
  /\ (length (conf_mats metrics) = length names ->
      (length names <= 45)%nat ->
      dump = zip names (conf_mats metrics) /\ map fst dump = names).
Proof.
  intros Hnames dump.
  assert (Hdump : dump_of metrics names = dump).
  { unfold dump_of. rewrite plot_loop_fst, length_map. reflexivity. }
  split; [|split].
  - rewrite (log_metrics_run trainer metrics split self names Hnames).
    fold (figure_of metrics names). fold (dump_of metrics names).
    rewrite Hdump. reflexivity.
  - rewrite <- Hdump. unfold figure_of, dump_of. apply plot_loop_drawn.
    apply Forall_map. unfold subplots. apply Forall_forall.
    intros ax Hax. apply list_elem_of_In, repeat_spec in Hax. subst ax.
    reflexivity.
  - intros Hlen H45.
    assert (Hall : dump = zip names (conf_mats metrics)).
    { subst dump. apply take_ge. rewrite length_zip_with. lia. }
    split; [exact Hall|]. rewrite Hall. apply fst_zip. lia.
Qed.

(** X18.  The title slice [label[0:20]] only ever drops a tail: the slice
    followed by some rest is the name, it is the whole name exactly when the
    name has at most that many characters, and slicing again changes
    nothing. *)
Theorem X18_title_slice n label :
  (exists rest, label = py_slice_to n label +:+ rest)
  /\ ((String.length label <= n)%nat <-> py_slice_to n label = label)
  /\ py_slice_to n (py_slice_to n label) = py_slice_to n label.
Proof.
  unfold py_slice_to. revert label.
  induction n as [|n IH]; intros [|c s]; cbn.
  - split; [exists ""; reflexivity|]. split; [|reflexivity].
    split; intros H; try reflexivity; lia.
  - split; [exists (String c s); reflexivity|]. split; [|reflexivity].
    split; intros H; [lia|discriminate H].
  - split; [exists ""; reflexivity|]. split; [|reflexivity].
    split; intros H; try reflexivity; lia.
  - destruct (IH s) as ((rest & Hrest) & Hiff & Hidem).
    split; [exists rest; rewrite Hrest at 1; reflexivity|]. split.
    + split.
      * intros Hle. f_equal. apply Hiff. lia.
      * intros Heq. injection Heq as Heq. apply Hiff in Heq. lia.
    + rewrite Hidem. reflexivity.
Qed.

End Runtime.

(** * Examples

    The theorems above at concrete inputs, under the runtime of the
    examples. *)

#[local] Existing Instance real_runtime.

Lemma C1_min_mode_tracks_minimum_witness :
  let self := fresh "min" "loss" in
  let bundles := [scalars (3#4) 0 0 0; scalars (1#2) 0 0 0; scalars (2#3) 0 0 0] in
  mode (monitor (cfg self)) = "min"
  /\ valid_name (name (monitor (cfg self)))
  /\ ends_with_best (a_trainer false ["a"; "b"]) self bundles (1#2)%Q.
Proof.
  intros self bundles.
  assert (Hmode : mode (monitor (cfg self)) = "min") by reflexivity.
  assert (Hn : valid_name (name (monitor (cfg self)))).
  { apply (bool_decide_unpack _). vm_compute. exact I. }
  split; [exact Hmode|]. split; [exact Hn|].
  exact (proj1 (proj2 (C1_min_mode_tracks_minimum
                         (a_trainer false ["a"; "b"]) self bundles Hmode Hn))).
Defined.

Lemma C2_max_mode_tracks_maximum_witness :
  let self := fresh "max" "f1_score" in
  let bundles :=
    [scalars 1 0 0 (1#2); scalars 1 0 0 (1#4); scalars 1 0 0 (3#4)] in
  mode (monitor (cfg self)) = "max"
  /\ valid_name (name (monitor (cfg self)))
  /\ paired (monitor (cfg self))
  /\ tracks_max_from 0 (a_trainer false ["a"; "b"]) self bundles.
Proof.
  intros self bundles.
  assert (Hmode : mode (monitor (cfg self)) = "max") by reflexivity.
  assert (Hn : valid_name (name (monitor (cfg self)))).
  { apply (bool_decide_unpack _). vm_compute. exact I. }
  assert (Hp : paired (monitor (cfg self))).
  { split; intros H; [discriminate H|reflexivity]. }
  split; [exact Hmode|]. split; [exact Hn|]. split; [exact Hp|].
  exact (C2_max_mode_tracks_maximum
           (a_trainer false ["a"; "b"]) self bundles Hmode Hn Hp).
Defined.

Lemma C4_update_returns_none_witness :
  let self := started (a_trainer false ["a"; "b"]) (fresh "min" "loss") in
  let metrics := scalars (1#2) 1 1 1 in
  valid_name (name (monitor (cfg self)))
  /\ best_metric self = Some 99999%Q
  /\ update_best_metric metrics self = (inr PyNone, with_best metrics self).
Proof.
  intros self metrics.
  assert (Hn : valid_name (name (monitor (cfg self)))).
  { apply (bool_decide_unpack _). vm_compute. exact I. }
  assert (Hb : best_metric self = Some 99999%Q) by reflexivity.
  split; [exact Hn|]. split; [exact Hb|].
  destruct (proj2 (C4_update_returns_none metrics self) _ Hn Hb)
    as (self' & Hrun & Hrep & _).
  rewrite Hrun. f_equal. apply Hrep. reflexivity.
Defined.

Lemma C10_average_loss_needs_a_batch_witness :
  let step_outputs :=
    [ {| Out.loss := 1#2; Out.targets := [[true; false]];
         Out.logits := [[1; -1]]%Q |};
      {| Out.loss := 1#4; Out.targets := [[false; false]];
         Out.logits := [[-1; -1]]%Q |} ] in
  step_outputs <> []
  /\ exists avg,
       py_truediv (py_sum (all_loss step_outputs))
         (Z.of_nat (length (all_loss step_outputs))) = inr avg
       /\ (avg == 3#8)%Q.
Proof.
  intros step_outputs.
  assert (Hne : step_outputs <> []) by discriminate.
  split; [exact Hne|].
  destruct (proj1 (proj1 C10_average_loss_needs_a_batch step_outputs
                     (fresh "min" "loss") Hne)) as (avg & Hdiv & Havg).
  exists avg. split; [exact Hdiv|].
  rewrite Havg. reflexivity.
Defined.

Lemma C6_confusion_matrices_shape_witness :
  multilabel_outputs 2 two_batches
  /\ 0 < total_samples two_batches
  /\ exists metrics,
       _generic_epoch_end two_batches (trained "min" "loss" ["a"; "b"])
       = (inr metrics, trained "min" "loss" ["a"; "b"])
       /\ length (conf_mats metrics) = 2%nat.
Proof.
  assert (Hwf : multilabel_outputs 2 two_batches).
  { split; [lia|]. repeat constructor. }
  assert (Hpos : 0 < total_samples two_batches) by reflexivity.
  split; [exact Hwf|]. split; [exact Hpos|].
  set (self := trained "min" "loss" ["a"; "b"]).
  destruct (_generic_epoch_end two_batches self) as [[e | metrics] self']
    eqn:Hrun; [vm_compute in Hrun; discriminate Hrun|].
  pose proof (proj1 (_generic_epoch_end_inv _ _ _ _ Hrun)) as ->.
  exists metrics. split; [reflexivity|].
  exact (proj1 (C6_confusion_matrices_shape 2 two_batches self
                  metrics self Hwf Hpos Hrun)).
Defined.

Lemma C7_degenerate_class_witness :
  let self := trained "max" "f1_score" ["forest"; "glacier"; "water"] in
  exists metrics,
    _generic_epoch_end silent_class_batches self = (inr metrics, self)
    /\ conf_mats metrics !! 1%nat = Some [[3; 0]; [0; 0]].
Proof.
  intros self.
  assert (Hwf : multilabel_outputs 3 silent_class_batches).
  { split; [lia|]. repeat constructor. }
  assert (Hpos : 0 < total_samples silent_class_batches) by reflexivity.
  assert (Htrue : forall row, In row (all_targets silent_class_batches) ->
                              nth 1 row false = false).
  { intros row H. cbn in H. decompose [or] H; subst; try reflexivity.
    contradiction. }
  assert (Hpred : forall row, In row (all_preds silent_class_batches) ->
                              nth 1 row false = false).
  { intros row H. cbn in H. decompose [or] H; subst; try reflexivity.
    contradiction. }
  destruct (C7_degenerate_class 3 silent_class_batches self
              ["forest"; "glacier"; "water"] 1
              Hwf Hpos eq_refl eq_refl ltac:(lia) Htrue Hpred)
    as (metrics & Hrun & Hcm & _).
  exists metrics. split; [exact Hrun|exact Hcm].
Defined.


Lemma C9_confusion_matrix_figure_witness :
  let names := ["Coniferous forest"; "Water bodies and marine waters"] in
  let self := trained "max" "f1_score" names in
  class_names self = Some names
  /\ exists fig entries,
       log_metrics (a_trainer false names) (uniform_bundle 2) "val" self
       = (inr tt,
          emits (diagnostics (a_trainer false names) (uniform_bundle 2)
                   "val" fig entries) self)
       /\ fig !! 1%nat
          = Some {| axison := false; image := Some [[1; 0]; [0; 1]];
                    has_colorbar := false;
                    title := "Water bodies and mar" |}
       /\ fig !! 2%nat = Some blank_axes.
Proof.
  intros names self.
  assert (Hnames : class_names self = Some names) by reflexivity.
  split; [exact Hnames|].
  destruct (C9_confusion_matrix_figure (a_trainer false names)
              (uniform_bundle 2) "val" self names Hnames)
    as (fig & entries & Hrun & _ & Hdrawn & Hblank & _).
  exists fig, entries. split; [exact Hrun|]. split.
  - apply (Hdrawn 1%nat [[1; 0]; [0; 1]] "Water bodies and marine waters");
      [lia|reflexivity|reflexivity].
  - apply (Hblank 2%nat); [lia|]. left. reflexivity.
Defined.

Lemma C3_sanity_phase_witness :
  let trainer := a_trainer true ["a"; "b"] in
  sanity_checking trainer = true
  /\ validation_phase const_model const_loss trainer [a_batch; a_batch]
       (fresh "min" "loss")
     = (inr tt,
        emits [LogScalar "loss/val" (1#2) (Some true) (Some true) true;
               LogScalar "loss/val" (1#2) (Some true) (Some true) true]
          (fresh "min" "loss"))
  /\ delivered trainer
       [LogScalar "loss/val" (1#2) (Some true) (Some true) true;
        LogScalar "loss/val" (1#2) (Some true) (Some true) true] = [].
Proof.
  intros trainer.
  assert (Hsanity : sanity_checking trainer = true) by reflexivity.
  split; [exact Hsanity|].
  destruct (C3_sanity_phase const_model const_loss trainer
              [a_batch; a_batch] (fresh "min" "loss") Hsanity)
    as (Hrun & Hnone & _).
  split; [exact Hrun|exact Hnone].
Defined.

Lemma C8_invalid_monitor_fails_fast_witness :
  let self := fresh "avg" "loss" in
  let trainer := a_trainer false ["a"; "b"] in
  let epochs :=
    training_phase const_model const_loss trainer [a_batch; a_batch] in
  (~ valid_mode (mode (monitor (cfg self)))
   \/ ~ valid_name (name (monitor (cfg self))))
  /\ on_train_start trainer self = (inl AssertionError, self)
  /\ fit const_model const_loss trainer [a_batch; a_batch] epochs self
     = (inl AssertionError,
        emits [LogScalar "loss/val" (1#2) (Some true) (Some true) true;
               LogScalar "loss/val" (1#2) (Some true) (Some true) true]
          self).
Proof.
  intros self trainer epochs.
  assert (Hbad : ~ valid_mode (mode (monitor (cfg self)))
                 \/ ~ valid_name (name (monitor (cfg self)))).
  { left. apply (bool_decide_eq_false_1 _). vm_compute. reflexivity. }
  split; [exact Hbad|].
  destruct (C8_invalid_monitor_fails_fast const_model const_loss trainer
              [a_batch; a_batch] epochs self Hbad) as (H1 & H2 & _).
  split; [exact H1|exact H2].
Defined.

(** C8 as worded fails: with the monitor [{mode: "avg", name: "loss"}] and
    a sanity check of two batches, the run does end in the error, but not
    before any batch has been processed: both sanity batches have been
    through [validation_step] by then. *)
Lemma C8_counterexample :
  ~ fails_before_any_batch const_model const_loss
      (a_trainer false ["a"; "b"]) [a_batch; a_batch]
      (training_phase const_model const_loss (a_trainer false ["a"; "b"])
         [a_batch; a_batch])
      (fresh "avg" "loss").
Proof.
  unfold fails_before_any_batch. intros H.
  apply (f_equal (fun r => length (emitted (snd r)))) in H.
  vm_compute in H. discriminate H.
Qed.

Lemma X1_update_is_monotone_witness :
  let self := trained "min" "loss" ["a"; "b"] in
  exists self' best',
    update_best_metric (scalars (1#2) 1 1 1) self = (inr PyNone, self')
    /\ best_metric self' = Some best'
    /\ (best' <= 99999)%Q.
Proof.
  intros self.
  assert (Hn : valid_name (name (monitor (cfg self)))).
  { apply (bool_decide_unpack _). vm_compute. exact I. }
  destruct (X1_update_is_monotone (scalars (1#2) 1 1 1) self 99999%Q
              Hn eq_refl)
    as (self' & best' & Hrun & Hb & _ & _ & Hmin & _).
  exists self', best'. split; [exact Hrun|]. split; [exact Hb|].
  apply Hmin. reflexivity.
Defined.

Lemma X2_update_twice_witness :
  let self := trained "max" "recall" ["a"; "b"] in
  exists self',
    update_best_metric (scalars 1 (1#2) (1#3) (2#5)) self = (inr PyNone, self')
    /\ best_metric self' = Some (1#3)%Q
    /\ update_best_metric (scalars 1 (1#2) (1#3) (2#5)) self'
       = (inr PyNone, self').
Proof.
  intros self.
  assert (Hn : valid_name (name (monitor (cfg self)))).
  { apply (bool_decide_unpack _). vm_compute. exact I. }
  destruct (X2_update_twice (scalars 1 (1#2) (1#3) (2#5)) self 0%Q
              Hn eq_refl) as (self' & H1 & H2).
  exists self'. split; [exact H1|]. split; [|exact H2].
  vm_compute in H1. injection H1 as <-. reflexivity.
Defined.

Lemma X3_update_unknown_mode_witness :
  update_best_metric (scalars 1 1 1 1) (fresh "avg" "accuracy")
  = (inr PyNone, fresh "avg" "accuracy").
Proof.
  apply X3_update_unknown_mode; discriminate.
Defined.

Lemma X4_update_before_start_witness :
  update_best_metric (scalars 1 1 1 1) (fresh "min" "loss")
  = (inl AttributeError, fresh "min" "loss")
  /\ update_best_metric (scalars 1 1 1 1) (fresh "max" "accuracy")
     = (inl KeyError, fresh "max" "accuracy").
Proof.
  assert (Hmin : valid_mode (mode (monitor (cfg (fresh "min" "loss"))))).
  { apply (bool_decide_unpack _). vm_compute. exact I. }
  assert (Hmax : valid_mode (mode (monitor (cfg (fresh "max" "accuracy"))))).
  { apply (bool_decide_unpack _). vm_compute. exact I. }
  split.
  - apply (proj1 (X4_update_before_start (scalars 1 1 1 1)
                    (fresh "min" "loss") Hmin eq_refl)).
    apply (bool_decide_unpack _). vm_compute. exact I.
  - apply (proj2 (X4_update_before_start (scalars 1 1 1 1)
                    (fresh "max" "accuracy") Hmax eq_refl)).
    reflexivity.
Defined.

Lemma X5_best_record_in_sync_witness :
  exists self',
    track (a_trainer false ["a"; "b"])
      [scalars (3#4) 0 0 0; scalars (1#2) 0 0 0; scalars (2#3) 0 0 0]
      (fresh "min" "loss")
    = (inr tt, self')
    /\ in_sync self'.
Proof.
  apply (proj1 (proj2 (proj2 X5_best_record_in_sync))).
  - apply (bool_decide_unpack _). vm_compute. exact I.
  - apply (bool_decide_unpack _). vm_compute. exact I.
Defined.

Lemma X6_tracker_never_fires_witness :
  let self := fresh "min" "f1_score" in
  let trainer := a_trainer false ["a"; "b"] in
  track trainer [scalars 1 0 0 (1#2); scalars 1 0 0 (1#4)] self
  = (inr tt, started trainer self).
Proof.
  intros self trainer. apply X6_tracker_never_fires.
  - apply (bool_decide_unpack _). vm_compute. exact I.
  - left. split; [reflexivity|]. split; [discriminate|].
    repeat constructor; discriminate.
Defined.

Lemma X7_scores_are_proportions_witness :
  let self := trained "max" "f1_score" ["a"; "b"] in
  multilabel_outputs 2 two_batches
  /\ exists metrics,
       _generic_epoch_end two_batches self = (inr metrics, self)
       /\ (0 <= f1_score metrics <= 1)%Q.
Proof.
  intros self.
  assert (Hwf : multilabel_outputs 2 two_batches).
  { split; [lia|]. repeat constructor. }
  split; [exact Hwf|].
  destruct (_generic_epoch_end two_batches self) as [[e | metrics] self']
    eqn:Hrun; [vm_compute in Hrun; discriminate Hrun|].
  pose proof (proj1 (_generic_epoch_end_inv _ _ _ _ Hrun)) as ->.
  exists metrics. split; [reflexivity|].
  exact (proj2 (proj2 (X7_scores_are_proportions 2 two_batches self
                         metrics self Hwf Hrun))).
Defined.

Lemma X8_perfect_predictions_witness :
  let self := trained "max" "f1_score" ["a"; "b"] in
  let outs :=
    [ {| Out.loss := 1#10; Out.targets := [[true; false]; [false; false]];
         Out.logits := [[2; -3]; [-1; -(1#2)]]%Q |};
      {| Out.loss := 1#5; Out.targets := [[true; true]];
         Out.logits := [[1#2; 4]]%Q |} ] in
  multilabel_outputs 2 outs
  /\ all_preds outs = all_targets outs
  /\ exists metrics,
       _generic_epoch_end outs self = (inr metrics, self)
       /\ (precision metrics == 1)%Q
       /\ (recall metrics == 1)%Q
       /\ (f1_score metrics == 1)%Q.
Proof.
  intros self outs.
  assert (Hwf : multilabel_outputs 2 outs).
  { split; [lia|]. repeat constructor. }
  assert (Heq : all_preds outs = all_targets outs) by reflexivity.
  split; [exact Hwf|]. split; [exact Heq|].
  destruct (_generic_epoch_end outs self) as [[e | metrics] self']
    eqn:Hrun; [vm_compute in Hrun; discriminate Hrun|].
  pose proof (proj1 (_generic_epoch_end_inv _ _ _ _ Hrun)) as ->.
  exists metrics. split; [reflexivity|].
  apply (proj2 (X8_perfect_predictions 2 outs self metrics self
                  Hwf Heq Hrun)).
  reflexivity.
Defined.

Lemma X9_batch_order_is_irrelevant_witness :
  let self := trained "max" "f1_score" ["a"; "b"] in
  multilabel_outputs 2 two_batches
  /\ Permutation two_batches (rev two_batches)
  /\ exists metrics metrics',
       _generic_epoch_end two_batches self = (inr metrics, self)
       /\ _generic_epoch_end (rev two_batches) self = (inr metrics', self)
       /\ conf_mats metrics' = conf_mats metrics.
Proof.
  intros self.
  assert (Hwf : multilabel_outputs 2 two_batches).
  { split; [lia|]. repeat constructor. }
  assert (Hperm : Permutation two_batches (rev two_batches))
    by apply Permutation_rev.
  split; [exact Hwf|]. split; [exact Hperm|].
  destruct (_generic_epoch_end two_batches self) as [[e | metrics] self']
    eqn:Hrun; [vm_compute in Hrun; discriminate Hrun|].
  pose proof (proj1 (_generic_epoch_end_inv _ _ _ _ Hrun)) as ->.
  destruct (X9_batch_order_is_irrelevant 2 two_batches (rev two_batches)
              self metrics self Hwf Hperm Hrun)
    as (metrics' & Hrun' & _ & _ & _ & Hcm).
  exists metrics, metrics'. split; [reflexivity|]. split; assumption.
Defined.

Lemma X12_only_validation_tracks_witness :
  let self := trained "min" "loss" ["a"; "b"] in
  let trainer := a_trainer false ["a"; "b"] in
  exists self',
    training_epoch_end trainer two_batches self = (inr tt, self')
    /\ best_metric self' = Some 99999%Q.
Proof.
  intros self trainer.
  destruct (training_epoch_end trainer two_batches self) as [[e | []] self']
    eqn:Hrun; [vm_compute in Hrun; discriminate Hrun|].
  exists self'. split; [reflexivity|].
  exact (proj1 (X12_only_validation_tracks trainer two_batches self
                  training_epoch_end (or_introl eq_refl) _ _ Hrun)).
Defined.

Lemma X13_validation_epoch_witness :
  let self := trained "min" "loss" ["a"; "b"] in
  let trainer := a_trainer false ["a"; "b"] in
  exists self',
    validation_epoch_end trainer two_batches self = (inr tt, self')
    /\ best_metric self' = Some (py_sum [1#2; 1#4] / 2)%Q
    /\ length (emitted self') = 9%nat.
Proof.
  intros self trainer.
  assert (Hn : valid_name (name (monitor (cfg self)))).
  { apply (bool_decide_unpack _). vm_compute. exact I. }
  pose proof (X13_validation_epoch trainer two_batches self 99999%Q
                eq_refl Hn eq_refl) as H.
  rewrite _generic_epoch_end_run in H. cbn iota in H.
  change (class_names self) with (Some ["a"; "b"]) in H. cbn iota in H.
  destruct H as (names & Hnames & Hrun).
  eexists. split; [exact Hrun|]. split; reflexivity.
Defined.

Lemma X14_validation_epoch_keeps_sync_witness :
  let self := trained "min" "loss" ["a"; "b"] in
  valid_name (name (monitor (cfg self)))
  /\ in_sync self
  /\ in_sync (snd (validation_epoch_end (a_trainer false ["a"; "b"])
                     two_batches self)).
Proof.
  intros self.
  assert (Hn : valid_name (name (monitor (cfg self)))).
  { apply (bool_decide_unpack _). vm_compute. exact I. }
  assert (Hsync : in_sync self).
  { exists init_metrics, 99999%Q. repeat split. }
  split; [exact Hn|]. split; [exact Hsync|].
  apply X14_validation_epoch_keeps_sync; assumption.
Defined.

Lemma X16_test_before_training_witness :
  test_phase const_model const_loss (a_trainer false ["a"; "b"])
    [a_batch; a_batch] (fresh "max" "f1_score")
  = (inl AttributeError, fresh "max" "f1_score").
Proof.
  exact (X16_test_before_training const_model const_loss
           (a_trainer false ["a"; "b"]) [a_batch; a_batch]
           (fresh "max" "f1_score") eq_refl).
Defined.

Lemma X17_dump_follows_figure_witness :
  let names := ["Coniferous forest"; "Water bodies and marine waters"] in
  let self := trained "max" "f1_score" names in
  class_names self = Some names
  /\ length (drawn (figure_of (uniform_bundle 2) names)) = 2%nat
  /\ take 45 (zip names (conf_mats (uniform_bundle 2)))
     = [("Coniferous forest", [[1; 0]; [0; 1]]);
        ("Water bodies and marine waters", [[1; 0]; [0; 1]])].
Proof.
  intros names self.
  assert (Hnames : class_names self = Some names) by reflexivity.
  split; [exact Hnames|].
  destruct (X17_dump_follows_figure (a_trainer false names)
              (uniform_bundle 2) "val" self names Hnames)
    as (_ & Hdrawn & _).
  split; [rewrite Hdrawn; reflexivity|reflexivity].
Defined.
